(** * rt-monitor-simulator: the debounced alarm decision engine

    A shallow embedding of [src/app/app.py], [src/sim/*.py], [src/main.py],
    [src/utils/logging.py] and [src/utils/metrics.py], and of the second
    state machine kept in [tests/test_state_machine_invariants.py].

    Python [int] is [Z], [str] is [string], [None]-able values are [option],
    [float] is the IEEE 754 binary64 of [SpecFloat].
    A method that mutates [self] and may raise is a function from the object
    to an outcome and the object as the call leaves it: an [assert] that
    fails keeps every attribute assignment made before it. *)

From Stdlib Require Import ZArith List String Ascii Bool Lia QArith DecimalString
  Qpower Sorted SpecFloat.
Import ListNotations.

Local Open Scope Z_scope.

(* ------------------------------------------------------------------ *)
(** ** Python primitives *)

(** [str(n)] for an [int]. *)
Definition str (n : Z) : string := NilZero.string_of_int (Z.to_int n).

(** [pat in s] for two [str]. *)
Definition contains (pat s : string) : bool :=
  match String.index 0 pat s with
  | Some _ => true
  | None => false
  end.

Fixpoint zeros (n : nat) : string :=
  match n with
  | O => EmptyString
  | S n' => String "0"%char (zeros n')
  end.

(** [f"{n:06d}"]: sign first, then zero padding up to six characters. *)
Definition format_06d (n : Z) : string :=
  let digits := str (Z.abs n) in
  if n <? 0
  then ("-" ++ zeros (5 - String.length digits) ++ digits)%string
  else (zeros (6 - String.length digits) ++ digits)%string.

(** [range(n)]. *)
Definition range (n : Z) : list Z := map Z.of_nat (seq 0 (Z.to_nat n)).

(** What an arithmetic expression gives: a value or one of the two
    exceptions of [/]. *)
Inductive arith_outcome (A : Type) : Type :=
| Value (a : A)
| OverflowError
| ZeroDivisionError.
Arguments Value {A} a.
Arguments OverflowError {A}.
Arguments ZeroDivisionError {A}.

(** An [int] as an operand of [/]: the integer itself, not yet rounded. *)
Definition exact_operand (n : Z) : spec_float :=
  match n with
  | 0 => S754_zero false
  | Zpos p => S754_finite false p 0
  | Zneg p => S754_finite true p 0
  end.

(** [a / b] for two [int]: IEEE 754 division of the two integers taken
    exactly, rounded once to binary64, to nearest with ties to even, a zero
    keeping the sign of the quotient; [ZeroDivisionError] for [b == 0] and
    [OverflowError] when the rounded quotient is beyond the largest float. *)
Definition true_divide (a b : Z) : arith_outcome spec_float :=
  if b =? 0 then ZeroDivisionError
  else
    match SFdiv 53 1024 (exact_operand a) (exact_operand b) with
    | S754_infinity _ => OverflowError
    | x => Value x
    end.

(** The number a [float] stands for, none for an infinity or a NaN. *)
Definition float_value (x : spec_float) : option Q :=
  match x with
  | S754_zero _ => Some 0%Q
  | S754_finite s m e =>
      Some (inject_Z (if s then Zneg m else Zpos m) * (2 # 1) ^ e)%Q
  | S754_infinity _ | S754_nan => None
  end.

(* ------------------------------------------------------------------ *)
(** ** Calls that mutate an object and may raise *)

Inductive outcome (A : Type) : Type :=
| Returns (a : A)
| AssertionError (message : string).
Arguments Returns {A} a.
Arguments AssertionError {A} message.

Definition M (S A : Type) : Type := S -> outcome A * S.

Definition ret {S A : Type} (a : A) : M S A := fun s => (Returns a, s).

Definition bind {S A B : Type} (c : M S A) (k : A -> M S B) : M S B :=
  fun s =>
    match c s with
    | (Returns a, s') => k a s'
    | (AssertionError m, s') => (AssertionError m, s')
    end.

Definition gets {S A : Type} (f : S -> A) : M S A := fun s => (Returns (f s), s).

Definition modify {S : Type} (f : S -> S) : M S unit := fun s => (Returns tt, f s).

Definition assert_ {S : Type} (b : bool) (message : string) : M S unit :=
  fun s => if b then (Returns tt, s) else (AssertionError message, s).

Declare Scope py_scope.
Delimit Scope py_scope with py.
Notation "x <- c ;; k" := (bind c (fun x => k))
  (at level 61, c at next level, right associativity) : py_scope.
Notation "c ;; k" := (bind c (fun _ => k))
  (at level 61, right associativity) : py_scope.

(** [for x in xs: body(x)]; the first exception leaves the loop. *)
Fixpoint for_each {S A : Type} (xs : list A) (body : A -> M S unit) : M S unit :=
  match xs with
  | [] => ret tt
  | x :: xs' => (body x ;; for_each xs' body)%py
  end.

Definition returned {A S : Type} (r : outcome A * S) : bool :=
  match fst r with
  | Returns _ => true
  | AssertionError _ => false
  end.

(* ------------------------------------------------------------------ *)
(** ** Data model *)

(** [src/utils/logging.py] *)
Record LogEvent : Type := mkLogEvent {
  t_ms : Z;
  level : string;
  code : string;
  msg : string
}.

Definition format_event (e : LogEvent) : string :=
  ("t=" ++ format_06d (t_ms e) ++ "ms | " ++ level e ++ " | " ++ code e
     ++ " | " ++ msg e)%string.

(** [src/sim/scenario.py] *)
Record Fault : Type := mkFault {
  tick : Z;
  kind : string;
  value : Z
}.

Record Scenario : Type := mkScenario {
  name : string;
  faults : list Fault
}.

(** [src/sim/engine.py] *)
Record ScenarioEngine : Type := mkScenarioEngine {
  scenario : Scenario
}.

Definition faults_at_tick (self : ScenarioEngine) (t : Z) : list Fault :=
  filter (fun f => tick f =? t) (faults (scenario self)).

(** [src/sim/clock.py] *)
Record SimClock : Type := mkSimClock {
  clock_tick_ms : Z;
  now_ms : Z
}.

Definition advance : M SimClock Z :=
  fun self =>
    let now := now_ms self + clock_tick_ms self in
    (Returns now, mkSimClock (clock_tick_ms self) now).

(** [src/app/app.py]; the test module declares the same two classes. *)
Inductive AlarmState : Type :=
| NOMINAL
| PENDING_RAISE
| ALARMED
| PENDING_CLEAR.

Definition AlarmState_eqb (a b : AlarmState) : bool :=
  match a, b with
  | NOMINAL, NOMINAL
  | PENDING_RAISE, PENDING_RAISE
  | ALARMED, ALARMED
  | PENDING_CLEAR, PENDING_CLEAR => true
  | _, _ => false
  end.

(** A member inside an f-string: [AlarmState] mixes in [str], so the text is
    the member's value (interpreters from 3.12 on print the qualified member
    name instead; only the text of two messages depends on it). *)
Definition AlarmState_format (a : AlarmState) : string :=
  match a with
  | NOMINAL => "NOMINAL"
  | PENDING_RAISE => "PENDING_RAISE"
  | ALARMED => "ALARMED"
  | PENDING_CLEAR => "PENDING_CLEAR"
  end.

Record AppConfig : Type := mkAppConfig {
  tick_ms : Z;
  total_ticks : Z;
  sensor_alarm_threshold : Z;
  alarm_raise_after : Z;
  alarm_clear_after : Z
}.

(** [AppConfig()] with its field defaults. *)
Definition AppConfig_default : AppConfig := mkAppConfig 10 50 1000 2 2.

(** The sensor reading of one tick, [sensor_value] after the loop over the
    tick's faults: every fault overwrites what the faults before it left. *)
Definition sensor_step (sensor_value : option Z) (f : Fault) : option Z :=
  if (kind f =? "dropout")%string then None
  else if (kind f =? "sensor_spike")%string then Some (value f)
  else sensor_value.

Definition sensor_value (faults : list Fault) : option Z :=
  fold_left sensor_step faults (Some 500).

(** The log records the state machines emit. *)
Definition APP_TICK (now : Z) (tick_count : Z) : LogEvent :=
  mkLogEvent now "INFO" "APP_TICK" ("tick=" ++ str tick_count).

Definition STATE_TRANSITION (now : Z) (from_state to_state : AlarmState)
    (reason : string) : LogEvent :=
  mkLogEvent now "INFO" "STATE_TRANSITION"
    ("from=" ++ AlarmState_format from_state ++ " to=" ++ AlarmState_format to_state
       ++ " reason=" ++ reason).

Definition ALARM_RAISED_dropout (now : Z) : LogEvent :=
  mkLogEvent now "ERROR" "ALARM_RAISED" "reason=sensor_dropout".

Definition ALARM_RAISED_spike (now : Z) (v : Z) : LogEvent :=
  mkLogEvent now "ERROR" "ALARM_RAISED" ("reason=sensor_spike value=" ++ str v).

Definition ALARM_PENDING_RAISE (now : Z) (streak needed v : Z) : LogEvent :=
  mkLogEvent now "WARN" "ALARM_PENDING_RAISE"
    ("reason=sensor_spike streak=" ++ str streak ++ " needed=" ++ str needed
       ++ " value=" ++ str v).

Definition ALARM_PENDING_CLEAR (now : Z) (streak needed v : Z) : LogEvent :=
  mkLogEvent now "INFO" "ALARM_PENDING_CLEAR"
    ("streak=" ++ str streak ++ " needed=" ++ str needed ++ " value=" ++ str v).

Definition ALARM_CLEARED (now : Z) : LogEvent :=
  mkLogEvent now "INFO" "ALARM_CLEARED" "reason=nominal".

Definition illegal_transition (from_state to_state : AlarmState) (reason : string)
    : string :=
  ("Illegal transition " ++ AlarmState_format from_state ++ " -> "
     ++ AlarmState_format to_state ++ " (reason=" ++ reason ++ ")")%string.

Definition codes (events : list LogEvent) : list string := map code events.

Arguments str : simpl never.
Arguments APP_TICK : simpl never.
Arguments STATE_TRANSITION : simpl never.
Arguments ALARM_RAISED_dropout : simpl never.
Arguments ALARM_RAISED_spike : simpl never.
Arguments ALARM_PENDING_RAISE : simpl never.
Arguments ALARM_PENDING_CLEAR : simpl never.
Arguments ALARM_CLEARED : simpl never.
Arguments illegal_transition : simpl never.

(* ------------------------------------------------------------------ *)
(** ** [src/app/app.py]: class [App] *)

Module App.

Record t : Type := mk {
  _cfg : AppConfig;
  _tick_count : Z;
  _state : AlarmState;
  _raise_streak : Z;
  _clear_streak : Z
}.

Definition set_tick_count (v : Z) (self : t) : t :=
  mk (_cfg self) v (_state self) (_raise_streak self) (_clear_streak self).
Definition set_state (v : AlarmState) (self : t) : t :=
  mk (_cfg self) (_tick_count self) v (_raise_streak self) (_clear_streak self).
Definition set_raise_streak (v : Z) (self : t) : t :=
  mk (_cfg self) (_tick_count self) (_state self) v (_clear_streak self).
Definition set_clear_streak (v : Z) (self : t) : t :=
  mk (_cfg self) (_tick_count self) (_state self) (_raise_streak self) v.

Definition _LEGAL_TRANSITIONS (from_state : AlarmState) : list AlarmState :=
  match from_state with
  | NOMINAL => [NOMINAL; PENDING_RAISE; ALARMED]
  | PENDING_RAISE => [PENDING_RAISE; NOMINAL; ALARMED]
  | ALARMED => [ALARMED; PENDING_CLEAR]
  | PENDING_CLEAR => [PENDING_CLEAR; NOMINAL; ALARMED; PENDING_RAISE]
  end.

(** [App(cfg)] *)
Definition __init__ (cfg : AppConfig) : t := mk cfg 0 NOMINAL 0 0.

Definition _transition (now : Z) (to_state : AlarmState) (reason : string)
    : M t (list LogEvent) :=
  (from_state <- gets _state ;;
   if AlarmState_eqb to_state from_state then ret []
   else
     let allowed := _LEGAL_TRANSITIONS from_state in
     assert_ (existsb (AlarmState_eqb to_state) allowed)
             (illegal_transition from_state to_state reason) ;;
     modify (set_state to_state) ;;
     ret [STATE_TRANSITION now from_state to_state reason])%py.

(** [events.extend(self._transition(...)); events.append(e)] *)
Definition transition_then (events : list LogEvent) (now : Z)
    (to_state : AlarmState) (reason : string) (e : t -> LogEvent)
    : M t (list LogEvent) :=
  (moved <- _transition now to_state reason ;;
   last <- gets e ;;
   ret (events ++ moved ++ [last]))%py.

Definition tick (now : Z) (faults : list Fault) : M t (list LogEvent) :=
  (tick_count <- gets _tick_count ;;
   let events := [APP_TICK now tick_count] in
   cfg <- gets _cfg ;;
   let threshold := sensor_alarm_threshold cfg in
   match sensor_value faults with
   | None =>
       (* 1) Dropout: immediate alarm condition *)
       modify (set_raise_streak 0) ;;
       modify (set_clear_streak 0) ;;
       state <- gets _state ;;
       events <-
         (if AlarmState_eqb state PENDING_CLEAR then
            transition_then events now ALARMED "dropout_returned"
              (fun _ => ALARM_RAISED_dropout now)
          else if AlarmState_eqb state ALARMED then
            ret events
          else
            transition_then events now ALARMED "dropout_immediate"
              (fun _ => ALARM_RAISED_dropout now)) ;;
       modify (fun self => set_tick_count (_tick_count self + 1) self) ;;
       ret events
   | Some v =>
       (* 2) Sensor present: decide spike vs nominal *)
       events <-
         (if v >=? threshold then
            modify (set_clear_streak 0) ;;
            state <- gets _state ;;
            if AlarmState_eqb state PENDING_CLEAR then
              modify (set_raise_streak 1) ;;
              transition_then events now PENDING_RAISE "raise_pending"
                (fun self => ALARM_PENDING_RAISE now (_raise_streak self)
                               (alarm_raise_after cfg) v)
            else if AlarmState_eqb state ALARMED then
              modify (set_raise_streak 0) ;;
              ret events
            else
              modify (fun self => set_raise_streak (_raise_streak self + 1) self) ;;
              raise_streak <- gets _raise_streak ;;
              if raise_streak <? alarm_raise_after cfg then
                transition_then events now PENDING_RAISE "raise_pending"
                  (fun self => ALARM_PENDING_RAISE now (_raise_streak self)
                                 (alarm_raise_after cfg) v)
              else
                modify (set_raise_streak 0) ;;
                transition_then events now ALARMED "raise_committed"
                  (fun _ => ALARM_RAISED_spike now v)
          else
            modify (set_raise_streak 0) ;;
            state <- gets _state ;;
            if negb (AlarmState_eqb state ALARMED)
               && negb (AlarmState_eqb state PENDING_CLEAR) then
              modify (set_clear_streak 0) ;;
              moved <- _transition now NOMINAL "nominal" ;;
              ret (events ++ moved)
            else
              modify (fun self => set_clear_streak (_clear_streak self + 1) self) ;;
              clear_streak <- gets _clear_streak ;;
              if clear_streak <? alarm_clear_after cfg then
                transition_then events now PENDING_CLEAR "clear_pending"
                  (fun self => ALARM_PENDING_CLEAR now (_clear_streak self)
                                 (alarm_clear_after cfg) v)
              else
                modify (set_clear_streak 0) ;;
                transition_then events now NOMINAL "clear_committed"
                  (fun _ => ALARM_CLEARED now)) ;;
       modify (fun self => set_tick_count (_tick_count self + 1) self) ;;
       ret events
   end)%py.

End App.

(* ------------------------------------------------------------------ *)
(** ** [tests/test_state_machine_invariants.py]: the second class [App] *)

Module TestApp.

Record t : Type := mk {
  _cfg : AppConfig;
  _tick_count : Z;
  _state : AlarmState;
  _alarm_active : bool;
  _raise_streak : Z;
  _clear_streak : Z
}.

Definition set_tick_count (v : Z) (self : t) : t :=
  mk (_cfg self) v (_state self) (_alarm_active self) (_raise_streak self)
     (_clear_streak self).
Definition set_state (v : AlarmState) (self : t) : t :=
  mk (_cfg self) (_tick_count self) v (_alarm_active self) (_raise_streak self)
     (_clear_streak self).
Definition set_alarm_active (v : bool) (self : t) : t :=
  mk (_cfg self) (_tick_count self) (_state self) v (_raise_streak self)
     (_clear_streak self).
Definition set_raise_streak (v : Z) (self : t) : t :=
  mk (_cfg self) (_tick_count self) (_state self) (_alarm_active self) v
     (_clear_streak self).
Definition set_clear_streak (v : Z) (self : t) : t :=
  mk (_cfg self) (_tick_count self) (_state self) (_alarm_active self)
     (_raise_streak self) v.

Definition _LEGAL_TRANSITIONS (from_state : AlarmState) : list AlarmState :=
  match from_state with
  | NOMINAL => [NOMINAL; PENDING_RAISE; ALARMED]
  | PENDING_RAISE => [PENDING_RAISE; NOMINAL; ALARMED]
  | ALARMED => [ALARMED; PENDING_CLEAR]
  | PENDING_CLEAR => [PENDING_CLEAR; NOMINAL; PENDING_RAISE]
  end.

Definition __init__ (cfg : AppConfig) : t := mk cfg 0 NOMINAL false 0 0.

Definition _transition (now : Z) (to_state : AlarmState) (reason : string)
    : M t (list LogEvent) :=
  (from_state <- gets _state ;;
   if AlarmState_eqb to_state from_state then ret []
   else
     let allowed := _LEGAL_TRANSITIONS from_state in
     assert_ (existsb (AlarmState_eqb to_state) allowed)
             (illegal_transition from_state to_state reason) ;;
     modify (set_state to_state) ;;
     ret [STATE_TRANSITION now from_state to_state reason])%py.

Definition transition_then (events : list LogEvent) (now : Z)
    (to_state : AlarmState) (reason : string) (e : t -> LogEvent)
    : M t (list LogEvent) :=
  (moved <- _transition now to_state reason ;;
   last <- gets e ;;
   ret (events ++ moved ++ [last]))%py.

(** [self._alarm_active = (self._state == AlarmState.ALARMED)] *)
Definition sync_alarm_active : M t unit :=
  modify (fun self => set_alarm_active (AlarmState_eqb (_state self) ALARMED) self).

Definition tick (now : Z) (faults : list Fault) : M t (list LogEvent) :=
  (tick_count <- gets _tick_count ;;
   let events := [APP_TICK now tick_count] in
   cfg <- gets _cfg ;;
   match sensor_value faults with
   | None =>
       (* Dropout: treat as immediate alarm condition (no debounce) *)
       modify (set_raise_streak 0) ;;
       modify (set_clear_streak 0) ;;
       state <- gets _state ;;
       events <-
         (if negb (AlarmState_eqb state ALARMED) then
            transition_then events now ALARMED "dropout_immediate"
              (fun _ => ALARM_RAISED_dropout now)
          else ret events) ;;
       sync_alarm_active ;;
       modify (fun self => set_tick_count (_tick_count self + 1) self) ;;
       ret events
   | Some v =>
       let alarm_condition := v >=? sensor_alarm_threshold cfg in
       events <-
         (if alarm_condition then
            state <- gets _state ;;
            if AlarmState_eqb state PENDING_CLEAR then
              modify (set_clear_streak 0) ;;
              modify (set_raise_streak 1) ;;
              transition_then events now PENDING_RAISE "raise_pending"
                (fun self => ALARM_PENDING_RAISE now (_raise_streak self)
                               (alarm_raise_after cfg) v)
            else if AlarmState_eqb state ALARMED then
              modify (set_clear_streak 0) ;;
              ret events
            else
              modify (set_clear_streak 0) ;;
              modify (fun self => set_raise_streak (_raise_streak self + 1) self) ;;
              raise_streak <- gets _raise_streak ;;
              if raise_streak <? alarm_raise_after cfg then
                transition_then events now PENDING_RAISE "raise_pending"
                  (fun self => ALARM_PENDING_RAISE now (_raise_streak self)
                                 (alarm_raise_after cfg) v)
              else
                transition_then events now ALARMED "raise_committed"
                  (fun _ => ALARM_RAISED_spike now v)
          else
            state <- gets _state ;;
            if negb (AlarmState_eqb state ALARMED)
               && negb (AlarmState_eqb state PENDING_CLEAR) then
              modify (set_raise_streak 0) ;;
              modify (set_clear_streak 0) ;;
              moved <- _transition now NOMINAL "nominal" ;;
              ret (events ++ moved)
            else
              modify (set_raise_streak 0) ;;
              modify (fun self => set_clear_streak (_clear_streak self + 1) self) ;;
              clear_streak <- gets _clear_streak ;;
              if clear_streak <? alarm_clear_after cfg then
                transition_then events now PENDING_CLEAR "clear_pending"
                  (fun self => ALARM_PENDING_CLEAR now (_clear_streak self)
                                 (alarm_clear_after cfg) v)
              else
                transition_then events now NOMINAL "clear_committed"
                  (fun _ => ALARM_CLEARED now)) ;;
       sync_alarm_active ;;
       modify (fun self => set_tick_count (_tick_count self + 1) self) ;;
       ret events
   end)%py.

End TestApp.

(* ------------------------------------------------------------------ *)
(** ** Driving a machine *)

(** A caller's loop, as the tests write it:
    [for now_ms, faults in calls: out.append(app.tick(now_ms, faults))]. *)
Fixpoint tick_all (calls : list (Z * list Fault)) : M App.t (list (list LogEvent)) :=
  match calls with
  | [] => ret []
  | (now, fs) :: rest =>
      (events <- App.tick now fs ;;
       more <- tick_all rest ;;
       ret (events :: more))%py
  end.

(** The object after a series of calls, each one's exception caught. *)
Definition after_calls (calls : list (Z * list Fault)) (self : App.t) : App.t :=
  fold_left (fun app call => snd (App.tick (fst call) (snd call) app)) calls self.

(** [src/main.py]: [run_app] and its three locals. *)
Record Run : Type := mkRun {
  events : list LogEvent;
  clock : SimClock;
  app : App.t
}.

Definition append_events (es : list LogEvent) : M Run unit :=
  modify (fun r => mkRun (events r ++ es) (clock r) (app r)).

Definition on_clock {A : Type} (c : M SimClock A) : M Run A :=
  fun r => let (a, clock') := c (clock r) in (a, mkRun (events r) clock' (app r)).

Definition on_app {A : Type} (c : M App.t A) : M Run A :=
  fun r => let (a, app') := c (app r) in (a, mkRun (events r) (clock r) app').

Definition FAULT_INJECTED (now : Z) (fault : Fault) (t : Z) : LogEvent :=
  mkLogEvent now "WARN" "FAULT_INJECTED"
    ("kind=" ++ kind fault ++ " value=" ++ str (value fault) ++ " tick=" ++ str t).

Definition run_tick (engine : ScenarioEngine) (t : Z) : M Run unit :=
  (now <- gets (fun r => now_ms (clock r)) ;;
   let faults := faults_at_tick engine t in
   append_events (map (fun fault => FAULT_INJECTED now fault t) faults) ;;
   ticked <- on_app (App.tick now faults) ;;
   append_events ticked ;;
   _ <- on_clock advance ;;
   ret tt)%py.

Definition run_app (cfg : AppConfig) (engine : ScenarioEngine)
    : outcome (list LogEvent) :=
  fst ((append_events
          [mkLogEvent 0 "INFO" "BOOT"
             ("tick_ms=" ++ str (tick_ms cfg) ++ " total_ticks="
                ++ str (total_ticks cfg))] ;;
        for_each (range (total_ticks cfg)) (run_tick engine) ;;
        now <- gets (fun r => now_ms (clock r)) ;;
        append_events [mkLogEvent now "INFO" "SHUTDOWN" "reason=completed_ticks"] ;;
        gets events)%py
       (mkRun [] (mkSimClock (tick_ms cfg) 0) (App.__init__ cfg))).

(** The lines [main] prints for a run that completed. *)
Definition printed (log : outcome (list LogEvent)) : outcome (list string) :=
  match log with
  | Returns events => Returns (map format_event events)
  | AssertionError m => AssertionError m
  end.

(* ------------------------------------------------------------------ *)
(** ** [src/utils/metrics.py] *)

Record RunMetrics : Type := mkRunMetrics {
  alarms_raised : Z;
  alarms_cleared : Z;
  alarmed_ms : Z;
  nominal_ms : Z;
  faults_injected : Z;
  dropout_faults : Z;
  spike_faults : Z;
  clear_durations_ms_total : Z;
  clear_durations_count : Z
}.

(** [RunMetrics()] *)
Definition RunMetrics_default : RunMetrics := mkRunMetrics 0 0 0 0 0 0 0 0 0.

(** [None], the [float] of [total / count], or the exception [/] raised. *)
Definition mean_time_to_clear_ms (self : RunMetrics)
    : arith_outcome (option spec_float) :=
  if clear_durations_count self =? 0 then Value None
  else
    match true_divide (clear_durations_ms_total self)
            (clear_durations_count self) with
    | Value x => Value (Some x)
    | OverflowError => OverflowError
    | ZeroDivisionError => ZeroDivisionError
    end.

Module MetricsCollector.

Record t : Type := mk {
  _tick_ms : Z;
  _m : RunMetrics;
  _alarmed : bool;
  _alarm_start_ms : option Z
}.

Definition __init__ (tick_ms : Z) : t := mk tick_ms RunMetrics_default false None.

(** [self._m.<field> += d], one definition per field [consume] touches. *)
Definition set_m (m : RunMetrics) (self : t) : t :=
  mk (_tick_ms self) m (_alarmed self) (_alarm_start_ms self).
Definition add_alarms_raised (d : Z) (m : RunMetrics) : RunMetrics :=
  mkRunMetrics (alarms_raised m + d) (alarms_cleared m) (alarmed_ms m) (nominal_ms m)
    (faults_injected m) (dropout_faults m) (spike_faults m)
    (clear_durations_ms_total m) (clear_durations_count m).
Definition add_alarms_cleared (d : Z) (m : RunMetrics) : RunMetrics :=
  mkRunMetrics (alarms_raised m) (alarms_cleared m + d) (alarmed_ms m) (nominal_ms m)
    (faults_injected m) (dropout_faults m) (spike_faults m)
    (clear_durations_ms_total m) (clear_durations_count m).
Definition add_alarmed_ms (d : Z) (m : RunMetrics) : RunMetrics :=
  mkRunMetrics (alarms_raised m) (alarms_cleared m) (alarmed_ms m + d) (nominal_ms m)
    (faults_injected m) (dropout_faults m) (spike_faults m)
    (clear_durations_ms_total m) (clear_durations_count m).
Definition add_nominal_ms (d : Z) (m : RunMetrics) : RunMetrics :=
  mkRunMetrics (alarms_raised m) (alarms_cleared m) (alarmed_ms m) (nominal_ms m + d)
    (faults_injected m) (dropout_faults m) (spike_faults m)
    (clear_durations_ms_total m) (clear_durations_count m).
Definition add_faults_injected (d : Z) (m : RunMetrics) : RunMetrics :=
  mkRunMetrics (alarms_raised m) (alarms_cleared m) (alarmed_ms m) (nominal_ms m)
    (faults_injected m + d) (dropout_faults m) (spike_faults m)
    (clear_durations_ms_total m) (clear_durations_count m).
Definition add_dropout_faults (d : Z) (m : RunMetrics) : RunMetrics :=
  mkRunMetrics (alarms_raised m) (alarms_cleared m) (alarmed_ms m) (nominal_ms m)
    (faults_injected m) (dropout_faults m + d) (spike_faults m)
    (clear_durations_ms_total m) (clear_durations_count m).
Definition add_spike_faults (d : Z) (m : RunMetrics) : RunMetrics :=
  mkRunMetrics (alarms_raised m) (alarms_cleared m) (alarmed_ms m) (nominal_ms m)
    (faults_injected m) (dropout_faults m) (spike_faults m + d)
    (clear_durations_ms_total m) (clear_durations_count m).
Definition add_clear_duration (d : Z) (m : RunMetrics) : RunMetrics :=
  mkRunMetrics (alarms_raised m) (alarms_cleared m) (alarmed_ms m) (nominal_ms m)
    (faults_injected m) (dropout_faults m) (spike_faults m)
    (clear_durations_ms_total m + d) (clear_durations_count m + 1).

Definition on_fault_injected (e : LogEvent) (self : t) : t :=
  let self := set_m (add_faults_injected 1 (_m self)) self in
  let self := if contains "kind=dropout" (msg e)
              then set_m (add_dropout_faults 1 (_m self)) self else self in
  if contains "kind=sensor_spike" (msg e)
  then set_m (add_spike_faults 1 (_m self)) self else self.

Definition on_alarm_raised (e : LogEvent) (self : t) : t :=
  let self := set_m (add_alarms_raised 1 (_m self)) self in
  if negb (_alarmed self)
  then mk (_tick_ms self) (_m self) true (Some (t_ms e))
  else self.

Definition on_alarm_cleared (e : LogEvent) (self : t) : t :=
  let self := set_m (add_alarms_cleared 1 (_m self)) self in
  let self :=
    match _alarmed self, _alarm_start_ms self with
    | true, Some start => set_m (add_clear_duration (t_ms e - start) (_m self)) self
    | _, _ => self
    end in
  mk (_tick_ms self) (_m self) false None.

Definition on_app_tick (self : t) : t :=
  if _alarmed self
  then set_m (add_alarmed_ms (_tick_ms self) (_m self)) self
  else set_m (add_nominal_ms (_tick_ms self) (_m self)) self.

(** The four [if e.code == ...] statements of [consume], in order. *)
Definition consume (e : LogEvent) (self : t) : t :=
  let self := if (code e =? "FAULT_INJECTED")%string
              then on_fault_injected e self else self in
  let self := if (code e =? "ALARM_RAISED")%string
              then on_alarm_raised e self else self in
  let self := if (code e =? "ALARM_CLEARED")%string
              then on_alarm_cleared e self else self in
  if (code e =? "APP_TICK")%string then on_app_tick self else self.

Definition snapshot (self : t) : RunMetrics := _m self.

(** [for e in events: mc.consume(e)], as [main] does. *)
Definition consume_all (events : list LogEvent) (self : t) : t :=
  fold_left (fun mc e => consume e mc) events self.

End MetricsCollector.

(* ================================================================== *)
(** * Properties *)

Local Open Scope string_scope.
Local Open Scope Z_scope.

(** Unfolds one call of a state machine down to the tests it branches on. *)
Ltac unfold_app :=
  cbv beta iota zeta delta
    [App.tick App.transition_then App._transition App._LEGAL_TRANSITIONS
     App.set_tick_count App.set_state App.set_raise_streak App.set_clear_streak
     App._cfg App._tick_count App._state App._raise_streak App._clear_streak
     bind ret gets modify assert_ AlarmState_eqb existsb negb andb orb
     app fst snd].

Ltac unfold_test_app :=
  cbv beta iota zeta delta
    [TestApp.tick TestApp.transition_then TestApp._transition
     TestApp._LEGAL_TRANSITIONS TestApp.sync_alarm_active
     TestApp.set_tick_count TestApp.set_state TestApp.set_alarm_active
     TestApp.set_raise_streak TestApp.set_clear_streak
     TestApp._cfg TestApp._tick_count TestApp._state TestApp._alarm_active
     TestApp._raise_streak TestApp._clear_streak
     bind ret gets modify assert_ AlarmState_eqb existsb negb andb orb
     app fst snd].

Ltac by_cases_geb v th :=
  let H := fresh "Hcmp" in
  destruct (Z.geb_spec v th) as [H | H]; try lia.

Ltac by_cases_ltb a b :=
  let H := fresh "Hcmp" in
  destruct (Z.ltb_spec a b) as [H | H]; try lia.

Section OneTick.

Variables (now : Z) (fs : list Fault).

(** A tick whose reading is absent, in each state. *)
Lemma tick_dropout (self : App.t) :
  sensor_value fs = None ->
  App.tick now fs self =
    match App._state self with
    | ALARMED =>
        (Returns [APP_TICK now (App._tick_count self)],
         App.mk (App._cfg self) (App._tick_count self + 1) ALARMED 0 0)
    | PENDING_CLEAR =>
        (Returns [APP_TICK now (App._tick_count self);
                  STATE_TRANSITION now PENDING_CLEAR ALARMED "dropout_returned";
                  ALARM_RAISED_dropout now],
         App.mk (App._cfg self) (App._tick_count self + 1) ALARMED 0 0)
    | from_state =>
        (Returns [APP_TICK now (App._tick_count self);
                  STATE_TRANSITION now from_state ALARMED "dropout_immediate";
                  ALARM_RAISED_dropout now],
         App.mk (App._cfg self) (App._tick_count self + 1) ALARMED 0 0)
    end.
Proof.
  intros Hs. destruct self as [cfg tc st rs cs].
  unfold App.tick, bind at 1, gets at 1. simpl.
  unfold bind at 1, gets at 1. simpl. rewrite Hs.
  destruct st; unfold_app; reflexivity.
Qed.

End OneTick.

(** C4. In [PENDING_CLEAR], a present reading at or above the threshold sets
    the raise streak to 1, moves the machine to [PENDING_RAISE] with reason
    [raise_pending] and emits [ALARM_PENDING_RAISE] carrying streak, needed
    count and value; the tick neither enters [ALARMED] nor emits
    [ALARM_RAISED]. *)
Theorem pending_clear_alarm_condition_restarts_raise :
  forall (self : App.t) (now : Z) (fs : list Fault) (v : Z),
    App._state self = PENDING_CLEAR ->
    sensor_value fs = Some v ->
    v >= sensor_alarm_threshold (App._cfg self) ->
    exists (out : list LogEvent) (self' : App.t),
      App.tick now fs self = (Returns out, self')
      /\ out = [APP_TICK now (App._tick_count self);
                STATE_TRANSITION now PENDING_CLEAR PENDING_RAISE "raise_pending";
                ALARM_PENDING_RAISE now 1 (alarm_raise_after (App._cfg self)) v]
      /\ App._raise_streak self' = 1
      /\ App._state self' = PENDING_RAISE
      /\ App._state self' <> ALARMED
      /\ ~ In "ALARM_RAISED" (codes out).
Proof.
  intros [cfg tc st rs cs] now fs v Hst Hs Hv. simpl in Hst, Hv. subst st.
  eexists. eexists. split.
  - unfold App.tick. rewrite Hs. unfold_app.
    by_cases_geb v (sensor_alarm_threshold cfg). reflexivity.
  - repeat split; try reflexivity; try discriminate.
    simpl. intros [H | [H | [H | []]]]; discriminate.
Qed.

Lemma pending_clear_alarm_condition_restarts_raise_witness :
  exists (out : list LogEvent) (self' : App.t),
    App.tick 30 [mkFault 3 "sensor_spike" 1200]
      (App.mk AppConfig_default 3 PENDING_CLEAR 0 1) = (Returns out, self')
    /\ out = [APP_TICK 30 3;
              STATE_TRANSITION 30 PENDING_CLEAR PENDING_RAISE "raise_pending";
              ALARM_PENDING_RAISE 30 1 2 1200]
    /\ App._raise_streak self' = 1
    /\ App._state self' = PENDING_RAISE
    /\ App._state self' <> ALARMED
    /\ ~ In "ALARM_RAISED" (codes out).
Proof.
  apply (pending_clear_alarm_condition_restarts_raise
           (App.mk AppConfig_default 3 PENDING_CLEAR 0 1) 30
           [mkFault 3 "sensor_spike" 1200] 1200).
  - reflexivity.
  - reflexivity.
  - simpl. lia.
Defined.

(** Every call of a list has an absent reading. *)
Definition all_dropout (calls : list (Z * list Fault)) : Prop :=
  Forall (fun call => sensor_value (snd call) = None) calls.

Lemma tick_all_alarmed_dropout (calls : list (Z * list Fault)) :
  all_dropout calls ->
  forall self : App.t,
    App._state self = ALARMED ->
    exists (outs : list (list LogEvent)) (self' : App.t),
      tick_all calls self = (Returns outs, self')
      /\ App._state self' = ALARMED
      /\ Forall (fun out => codes out = ["APP_TICK"]) outs
      /\ List.length outs = List.length calls.
Proof.
  induction 1 as [| [now fs] rest Hs _ IH]; intros self Hst.
  - exists [], self. repeat split; auto.
  - simpl in Hs.
    destruct (IH (App.mk (App._cfg self) (App._tick_count self + 1) ALARMED 0 0)
                 eq_refl) as (outs & self' & Hrun & Hst' & Hout & Hlen).
    exists ([APP_TICK now (App._tick_count self)] :: outs), self'.
    repeat split; auto.
    + simpl. unfold bind at 1. rewrite (tick_dropout now fs self Hs), Hst.
      unfold bind at 1. rewrite Hrun. reflexivity.
    + simpl. congruence.
Qed.

(** C5. In [ALARMED], a tick whose reading is absent makes no transition and
    returns [APP_TICK] alone; so however many such ticks follow a raise, the
    machine stays [ALARMED] and none of them emits [ALARM_RAISED] or
    [STATE_TRANSITION]. *)
Theorem alarmed_dropout_is_idempotent :
  forall self : App.t,
    App._state self = ALARMED ->
    (forall (now : Z) (fs : list Fault),
        sensor_value fs = None ->
        exists self' : App.t,
          App.tick now fs self = (Returns [APP_TICK now (App._tick_count self)], self')
          /\ App._state self' = ALARMED)
    /\ (forall calls : list (Z * list Fault),
           all_dropout calls ->
           exists (outs : list (list LogEvent)) (self' : App.t),
             tick_all calls self = (Returns outs, self')
             /\ App._state self' = ALARMED
             /\ List.length outs = List.length calls
             /\ Forall (fun out => ~ In "ALARM_RAISED" (codes out)
                                   /\ ~ In "STATE_TRANSITION" (codes out)) outs).
Proof.
  intros self Hst. split.
  - intros now fs Hs. rewrite (tick_dropout now fs self Hs), Hst.
    eexists. split; reflexivity.
  - intros calls Hcalls.
    destruct (tick_all_alarmed_dropout calls Hcalls self Hst)
      as (outs & self' & Hrun & Hst' & Hout & Hlen).
    exists outs, self'. repeat split; auto.
    eapply Forall_impl; [| exact Hout].
    intros out Hc. rewrite Hc. simpl.
    split; intros [H | []]; discriminate.
Qed.

(** The machine one dropout tick after construction with the default
    configuration: [ALARMED], tick counter 1. *)
Definition alarmed_after_dropout : App.t :=
  snd (App.tick 0 [mkFault 0 "dropout" 1] (App.__init__ AppConfig_default)).

Lemma alarmed_dropout_is_idempotent_witness :
  App._state alarmed_after_dropout = ALARMED
  /\ (exists self' : App.t,
         App.tick 10 [mkFault 1 "dropout" 1] alarmed_after_dropout
           = (Returns [APP_TICK 10 1], self')
         /\ App._state self' = ALARMED)
  /\ (exists (outs : list (list LogEvent)) (self' : App.t),
         tick_all [(10, [mkFault 1 "dropout" 1]);
                   (20, [mkFault 2 "sensor_spike" 1200; mkFault 2 "dropout" 1]);
                   (30, [mkFault 3 "dropout" 1])] alarmed_after_dropout
           = (Returns outs, self')
         /\ App._state self' = ALARMED
         /\ List.length outs = 3%nat
         /\ Forall (fun out => ~ In "ALARM_RAISED" (codes out)
                               /\ ~ In "STATE_TRANSITION" (codes out)) outs).
Proof.
  pose proof (alarmed_dropout_is_idempotent alarmed_after_dropout eq_refl)
    as [Hone Hmany].
  split; [reflexivity | split].
  - apply (Hone 10 [mkFault 1 "dropout" 1]). reflexivity.
  - apply (Hmany [(10, [mkFault 1 "dropout" 1]);
                  (20, [mkFault 2 "sensor_spike" 1200; mkFault 2 "dropout" 1]);
                  (30, [mkFault 3 "dropout" 1])]).
    repeat constructor.
Defined.

(** C6. With [alarm_raise_after = 2], the first tick of a fresh machine whose
    reading is present and at or above the threshold emits
    [ALARM_PENDING_RAISE] and no [ALARM_RAISED]; a second such tick right
    after it emits [STATE_TRANSITION] to [ALARMED] and [ALARM_RAISED]. *)
Theorem raise_after_two_needs_two_ticks :
  forall (cfg : AppConfig) (now1 now2 : Z) (fs1 fs2 : list Fault) (v1 v2 : Z),
    alarm_raise_after cfg = 2 ->
    sensor_value fs1 = Some v1 -> v1 >= sensor_alarm_threshold cfg ->
    sensor_value fs2 = Some v2 -> v2 >= sensor_alarm_threshold cfg ->
    exists (out1 : list LogEvent) (self1 : App.t)
           (out2 : list LogEvent) (self2 : App.t),
      App.tick now1 fs1 (App.__init__ cfg) = (Returns out1, self1)
      /\ out1 = [APP_TICK now1 0;
                 STATE_TRANSITION now1 NOMINAL PENDING_RAISE "raise_pending";
                 ALARM_PENDING_RAISE now1 1 2 v1]
      /\ ~ In "ALARM_RAISED" (codes out1)
      /\ App._state self1 = PENDING_RAISE
      /\ App.tick now2 fs2 self1 = (Returns out2, self2)
      /\ out2 = [APP_TICK now2 1;
                 STATE_TRANSITION now2 PENDING_RAISE ALARMED "raise_committed";
                 ALARM_RAISED_spike now2 v2]
      /\ App._state self2 = ALARMED.
Proof.
  intros [tms tot th ra ca] now1 now2 fs1 fs2 v1 v2 Hra Hs1 Hv1 Hs2 Hv2.
  simpl in Hra, Hv1, Hv2. subst ra.
  exists [APP_TICK now1 0;
          STATE_TRANSITION now1 NOMINAL PENDING_RAISE "raise_pending";
          ALARM_PENDING_RAISE now1 1 2 v1],
         (App.mk (mkAppConfig tms tot th 2 ca) 1 PENDING_RAISE 1 0).
  eexists. eexists.
  split; [| split; [reflexivity | split; [| split; [reflexivity | split]]]].
  - unfold App.tick, App.__init__. rewrite Hs1. unfold_app. simpl.
    by_cases_geb v1 th. reflexivity.
  - simpl. intros [H | [H | [H | []]]]; discriminate.
  - unfold App.tick. rewrite Hs2. unfold_app. simpl.
    by_cases_geb v2 th. reflexivity.
  - split; reflexivity.
Qed.

Lemma raise_after_two_needs_two_ticks_witness :
  exists (out1 : list LogEvent) (self1 : App.t)
         (out2 : list LogEvent) (self2 : App.t),
    App.tick 0 [mkFault 0 "sensor_spike" 1200] (App.__init__ AppConfig_default)
      = (Returns out1, self1)
    /\ out1 = [APP_TICK 0 0;
               STATE_TRANSITION 0 NOMINAL PENDING_RAISE "raise_pending";
               ALARM_PENDING_RAISE 0 1 2 1200]
    /\ ~ In "ALARM_RAISED" (codes out1)
    /\ App._state self1 = PENDING_RAISE
    /\ App.tick 10 [mkFault 0 "sensor_spike" 1000] self1 = (Returns out2, self2)
    /\ out2 = [APP_TICK 10 1;
               STATE_TRANSITION 10 PENDING_RAISE ALARMED "raise_committed";
               ALARM_RAISED_spike 10 1000]
    /\ App._state self2 = ALARMED.
Proof.
  apply (raise_after_two_needs_two_ticks AppConfig_default 0 10
           [mkFault 0 "sensor_spike" 1200] [mkFault 0 "sensor_spike" 1000]
           1200 1000).
  - reflexivity.
  - reflexivity.
  - simpl. lia.
  - reflexivity.
  - simpl. lia.
Defined.

(* ------------------------------------------------------------------ *)
(** ** The reading of a tick *)

Lemma sensor_value_app (fs gs : list Fault) :
  sensor_value (fs ++ gs) = fold_left sensor_step gs (sensor_value fs).
Proof. unfold sensor_value. apply fold_left_app. Qed.

Lemma sensor_step_keeps_absent (gs : list Fault) :
  Forall (fun f => kind f <> "sensor_spike") gs ->
  fold_left sensor_step gs None = None.
Proof.
  induction 1 as [| f gs Hf _ IH]; [reflexivity |].
  simpl. unfold sensor_step at 2.
  destruct (String.eqb_spec (kind f) "dropout"); [exact IH |].
  destruct (String.eqb_spec (kind f) "sensor_spike"); [contradiction | exact IH].
Qed.

(** A call reads its faults through [sensor_value] only. *)
Lemma tick_reads_sensor_value (now : Z) (fs gs : list Fault) (self : App.t) :
  sensor_value fs = sensor_value gs ->
  App.tick now fs self = App.tick now gs self.
Proof. intros H. unfold App.tick. rewrite H. reflexivity. Qed.

(** The reading is absent when no [sensor_spike] follows the last [dropout],
    and the call then returns what the call with that dropout alone returns. *)
Lemma dropout_wins_when_no_spike_follows
    (pre post : list Fault) (d : Fault) (now : Z) (self : App.t) :
  kind d = "dropout" ->
  Forall (fun f => kind f <> "sensor_spike") post ->
  sensor_value (pre ++ d :: post) = None
  /\ App.tick now (pre ++ d :: post) self = App.tick now [d] self.
Proof.
  intros Hd Hpost.
  assert (Hone : sensor_value [d] = None).
  { unfold sensor_value. simpl. unfold sensor_step. rewrite Hd. reflexivity. }
  assert (Hall : sensor_value (pre ++ d :: post) = None).
  { rewrite sensor_value_app. simpl. unfold sensor_step at 2. rewrite Hd. simpl.
    apply sensor_step_keeps_absent, Hpost. }
  split; [exact Hall |].
  apply tick_reads_sensor_value. congruence.
Qed.

Lemma dropout_wins_when_no_spike_follows_example :
  sensor_value [mkFault 0 "sensor_spike" 1200; mkFault 0 "dropout" 1] = None
  /\ App.tick 0 [mkFault 0 "sensor_spike" 1200; mkFault 0 "dropout" 1]
       (App.__init__ AppConfig_default)
     = App.tick 0 [mkFault 0 "dropout" 1] (App.__init__ AppConfig_default).
Proof.
  apply (dropout_wins_when_no_spike_follows
           [mkFault 0 "sensor_spike" 1200] [] (mkFault 0 "dropout" 1)).
  - reflexivity.
  - constructor.
Defined.

(** C1. A fault list with a [dropout] followed by a [sensor_spike]: the loop
    over the faults keeps the spike, so the reading is present (1200) and the
    call returns [ALARM_PENDING_RAISE] where the call with the dropout alone
    returns [ALARM_RAISED]: here [dropout] does not dominate, against the
    comment above the loop ("dropout wins over spike"). *)
Theorem dropout_before_spike_reads_the_spike :
  sensor_value [mkFault 0 "dropout" 1; mkFault 0 "sensor_spike" 1200] = Some 1200
  /\ App.tick 0 [mkFault 0 "dropout" 1; mkFault 0 "sensor_spike" 1200]
       (App.__init__ AppConfig_default)
     = (Returns [APP_TICK 0 0;
                 STATE_TRANSITION 0 NOMINAL PENDING_RAISE "raise_pending";
                 ALARM_PENDING_RAISE 0 1 2 1200],
        App.mk AppConfig_default 1 PENDING_RAISE 1 0)
  /\ App.tick 0 [mkFault 0 "dropout" 1] (App.__init__ AppConfig_default)
     = (Returns [APP_TICK 0 0;
                 STATE_TRANSITION 0 NOMINAL ALARMED "dropout_immediate";
                 ALARM_RAISED_dropout 0],
        App.mk AppConfig_default 1 ALARMED 0 0)
  /\ App.tick 0 [mkFault 0 "dropout" 1; mkFault 0 "sensor_spike" 1200]
       (App.__init__ AppConfig_default)
     <> App.tick 0 [mkFault 0 "dropout" 1] (App.__init__ AppConfig_default).
Proof.
  repeat split; try reflexivity.
  intros H. vm_compute in H. discriminate H.
Qed.

(* ------------------------------------------------------------------ *)
(** ** Every branch of [tick] *)

(** Splits a call of [App.tick] on the reading, the state and the two
    comparisons, leaving one goal per path through the method. *)
Ltac tick_paths self fs :=
  destruct self as [cfg tc st rs cs];
  unfold App.tick;
  destruct (sensor_value fs) as [v |];
  unfold_app; simpl;
  try (destruct (v >=? sensor_alarm_threshold cfg) eqn:Hcond);
  destruct st; unfold_app; simpl;
  repeat match goal with
         | |- context [if ?a <? ?b then _ else _] =>
             let H := fresh "Hlt" in
             destruct (Z.ltb_spec a b) as [H | H]; unfold_app; simpl
         end.

(** The one path on which the transition assertion fails: a reading below
    the threshold in [ALARMED] when the clear streak is already complete. *)
Definition commits_clear_from_alarmed (self : App.t) (fs : list Fault) : bool :=
  match sensor_value fs with
  | Some v =>
      (v <? sensor_alarm_threshold (App._cfg self))
      && AlarmState_eqb (App._state self) ALARMED
      && (alarm_clear_after (App._cfg self) <=? App._clear_streak self + 1)
  | None => false
  end.

Lemma tick_returned (now : Z) (fs : list Fault) (self : App.t) :
  returned (App.tick now fs self) = negb (commits_clear_from_alarmed self fs).
Proof.
  unfold commits_clear_from_alarmed.
  tick_paths self fs; unfold returned; simpl; try reflexivity;
    try (rewrite Z.geb_leb in Hcond);
    repeat match goal with
           | |- context [?a <? ?b] => destruct (Z.ltb_spec a b)
           | |- context [?a <=? ?b] => destruct (Z.leb_spec a b)
           | H : (?a <=? ?b) = _ |- _ => destruct (Z.leb_spec a b); try discriminate H; clear H
           end; simpl; try reflexivity; lia.
Qed.

Lemma tick_keeps_cfg (now : Z) (fs : list Fault) (self : App.t) :
  App._cfg (snd (App.tick now fs self)) = App._cfg self.
Proof. tick_paths self fs; reflexivity. Qed.

(** The calls of [tick_all] leave the object [after_calls] describes. *)
Lemma tick_all_after_calls (calls : list (Z * list Fault)) :
  forall (self self' : App.t) (outs : list (list LogEvent)),
    tick_all calls self = (Returns outs, self') ->
    self' = after_calls calls self.
Proof.
  induction calls as [| [now fs] rest IH]; intros self self' outs H.
  - inversion H. reflexivity.
  - simpl in H. unfold bind at 1 in H. unfold after_calls. simpl.
    destruct (App.tick now fs self) as [[out | m] self1]; [| discriminate H].
    unfold bind at 1 in H. simpl.
    destruct (tick_all rest self1) as [[outs' | m] self2] eqn:Hrest;
      [| discriminate H].
    inversion H; subst. apply (IH _ _ _ Hrest).
Qed.

(* ------------------------------------------------------------------ *)
(** ** Streak counters *)

Definition streaks_ok (self : App.t) : Prop :=
  0 <= App._raise_streak self
  /\ 0 <= App._clear_streak self
  /\ (App._raise_streak self = 0 \/ App._clear_streak self = 0).

Lemma tick_keeps_streaks_ok (now : Z) (fs : list Fault) (self : App.t) :
  streaks_ok self -> streaks_ok (snd (App.tick now fs self)).
Proof.
  unfold streaks_ok.
  tick_paths self fs; simpl; lia.
Qed.

Lemma after_calls_keeps_streaks_ok (calls : list (Z * list Fault)) :
  forall self : App.t, streaks_ok self -> streaks_ok (after_calls calls self).
Proof.
  unfold after_calls.
  induction calls as [| call rest IH]; intros self H; simpl.
  - exact H.
  - apply IH, tick_keeps_streaks_ok, H.
Qed.

(** C8. After any series of calls of [tick] on a freshly constructed
    machine (a call that raised included), neither streak counter is
    negative and at most one of them is nonzero. *)
Theorem streaks_never_negative_never_interleaved :
  forall (cfg : AppConfig) (calls : list (Z * list Fault)),
    0 <= App._raise_streak (after_calls calls (App.__init__ cfg))
    /\ 0 <= App._clear_streak (after_calls calls (App.__init__ cfg))
    /\ (App._raise_streak (after_calls calls (App.__init__ cfg)) = 0
        \/ App._clear_streak (after_calls calls (App.__init__ cfg)) = 0).
Proof.
  intros cfg calls.
  apply (after_calls_keeps_streaks_ok calls (App.__init__ cfg)).
  unfold streaks_ok. simpl. lia.
Qed.

(* ------------------------------------------------------------------ *)
(** ** The transition assertion *)

(** In [ALARMED] no clear streak is running. *)
Definition clear_streak_idle (self : App.t) : Prop :=
  App._state self = ALARMED -> App._clear_streak self = 0.

Lemma tick_keeps_clear_streak_idle (now : Z) (fs : list Fault) (self : App.t) :
  2 <= alarm_clear_after (App._cfg self) ->
  clear_streak_idle self ->
  clear_streak_idle (snd (App.tick now fs self)).
Proof.
  unfold clear_streak_idle.
  tick_paths self fs; simpl; intros Hca Hidle; intros; try reflexivity;
    try discriminate; try (specialize (Hidle eq_refl)); lia.
Qed.

Lemma tick_returns_when_idle (now : Z) (fs : list Fault) (self : App.t) :
  2 <= alarm_clear_after (App._cfg self) ->
  clear_streak_idle self ->
  returned (App.tick now fs self) = true.
Proof.
  intros Hca Hidle. rewrite tick_returned. unfold commits_clear_from_alarmed.
  destruct (sensor_value fs) as [v |]; [| reflexivity].
  destruct (v <? _); [| reflexivity].
  destruct (App._state self) eqn:Hst; try reflexivity.
  rewrite (Hidle Hst). simpl.
  destruct (Z.leb_spec (alarm_clear_after (App._cfg self)) 1); [lia | reflexivity].
Qed.

(** With [alarm_clear_after >= 2] no call on a machine driven from its
    construction reaches the failing assertion: every call returns. *)
Lemma tick_all_returns_when_clear_after_ge_2 (calls : list (Z * list Fault)) :
  forall self : App.t,
    2 <= alarm_clear_after (App._cfg self) ->
    clear_streak_idle self ->
    exists (outs : list (list LogEvent)) (self' : App.t),
      tick_all calls self = (Returns outs, self')
      /\ List.length outs = List.length calls.
Proof.
  induction calls as [| [now fs] rest IH]; intros self Hca Hidle.
  - exists [], self. split; reflexivity.
  - pose proof (tick_returns_when_idle now fs self Hca Hidle) as Hret.
    pose proof (tick_keeps_clear_streak_idle now fs self Hca Hidle) as Hidle'.
    pose proof (tick_keeps_cfg now fs self) as Hcfg.
    destruct (App.tick now fs self) as [[out | m] self1] eqn:Htick;
      [| discriminate Hret].
    simpl in Hidle', Hcfg. rewrite <- Hcfg in Hca.
    destruct (IH self1 Hca Hidle') as (outs & self' & Hrun & Hlen).
    exists (out :: outs), self'. split.
    + simpl. unfold bind at 1. rewrite Htick. unfold bind at 1. rewrite Hrun.
      reflexivity.
    + simpl. congruence.
Qed.

(** No transition outside the table is attempted when
    [alarm_clear_after >= 2], whatever the raise count, the threshold and the
    faults are. *)
Theorem transitions_legal_when_clear_after_ge_2 :
  forall (cfg : AppConfig) (calls : list (Z * list Fault)),
    2 <= alarm_clear_after cfg ->
    exists (outs : list (list LogEvent)) (self' : App.t),
      tick_all calls (App.__init__ cfg) = (Returns outs, self')
      /\ List.length outs = List.length calls.
Proof.
  intros cfg calls Hca.
  apply tick_all_returns_when_clear_after_ge_2; [exact Hca |].
  intros H. reflexivity.
Qed.

Lemma transitions_legal_when_clear_after_ge_2_witness :
  exists (outs : list (list LogEvent)) (self' : App.t),
    tick_all [(0, [mkFault 0 "dropout" 1]); (10, []); (20, [])]
      (App.__init__ AppConfig_default) = (Returns outs, self')
    /\ List.length outs = 3%nat.
Proof.
  apply (transitions_legal_when_clear_after_ge_2 AppConfig_default
           [(0, [mkFault 0 "dropout" 1]); (10, []); (20, [])]).
  simpl. lia.
Defined.

(** A configuration whose debounce counts are both at least 1 and whose
    clear count is exactly 1: [AppConfig(alarm_clear_after=1)]. *)
Definition cfg_clear_after_1 : AppConfig := mkAppConfig 10 50 1000 2 1.

(** C2. With [alarm_clear_after = 1] (both debounce counts at least 1) a
    dropout tick followed by a nominal tick attempts [ALARMED -> NOMINAL],
    which is not in the table: the second call raises [AssertionError] from
    [_transition], on external input alone. *)
Theorem clear_after_one_attempts_illegal_transition :
  1 <= alarm_raise_after cfg_clear_after_1
  /\ 1 <= alarm_clear_after cfg_clear_after_1
  /\ existsb (AlarmState_eqb NOMINAL) (App._LEGAL_TRANSITIONS ALARMED) = false
  /\ tick_all [(0, [mkFault 0 "dropout" 1]); (10, [])]
       (App.__init__ cfg_clear_after_1)
     = (AssertionError
          "Illegal transition ALARMED -> NOMINAL (reason=clear_committed)",
        App.mk cfg_clear_after_1 1 ALARMED 0 0)
  /\ run_app (mkAppConfig 10 2 1000 2 1)
       (mkScenarioEngine (mkScenario "dropout" [mkFault 0 "dropout" 1]))
     = AssertionError
         "Illegal transition ALARMED -> NOMINAL (reason=clear_committed)".
Proof.
  repeat split; try reflexivity; simpl; lia.
Qed.

(* ------------------------------------------------------------------ *)
(** ** [APP_TICK] and the tick counter *)

Ltac unfold_events :=
  cbv [codes map code APP_TICK STATE_TRANSITION ALARM_RAISED_dropout
       ALARM_RAISED_spike ALARM_PENDING_RAISE ALARM_PENDING_CLEAR ALARM_CLEARED].

(** For every call of [tick] that returns, on whichever branch and from
    whichever object: the first record is [APP_TICK], it carries the
    counter's value before the call, no other record of the sequence is an
    [APP_TICK], and the counter is one more than before. *)
Theorem returning_tick_emits_app_tick_first_and_once :
  forall (now : Z) (fs : list Fault) (self self' : App.t) (out : list LogEvent),
    App.tick now fs self = (Returns out, self') ->
    exists rest : list LogEvent,
      out = APP_TICK now (App._tick_count self) :: rest
      /\ msg (APP_TICK now (App._tick_count self))
         = ("tick=" ++ str (App._tick_count self))%string
      /\ ~ In "APP_TICK" (codes rest)
      /\ count_occ string_dec (codes out) "APP_TICK" = 1%nat
      /\ App._tick_count self' = App._tick_count self + 1.
Proof.
  intros now fs self self' out.
  tick_paths self fs; intros H; inversion H; subst; clear H;
    (eexists; split; [reflexivity | split; [reflexivity | split; [| split]]]);
    try reflexivity;
    unfold_events; simpl; intuition discriminate.
Qed.

Lemma returning_tick_emits_app_tick_first_and_once_witness :
  exists rest : list LogEvent,
    [APP_TICK 0 0; STATE_TRANSITION 0 NOMINAL ALARMED "dropout_immediate";
     ALARM_RAISED_dropout 0] = APP_TICK 0 (App._tick_count (App.__init__ AppConfig_default)) :: rest
    /\ msg (APP_TICK 0 (App._tick_count (App.__init__ AppConfig_default)))
       = ("tick=" ++ str (App._tick_count (App.__init__ AppConfig_default)))%string
    /\ ~ In "APP_TICK" (codes rest)
    /\ count_occ string_dec
         (codes [APP_TICK 0 0; STATE_TRANSITION 0 NOMINAL ALARMED "dropout_immediate";
                 ALARM_RAISED_dropout 0]) "APP_TICK" = 1%nat
    /\ App._tick_count (App.mk AppConfig_default 1 ALARMED 0 0)
       = App._tick_count (App.__init__ AppConfig_default) + 1.
Proof.
  apply (returning_tick_emits_app_tick_first_and_once 0 [mkFault 0 "dropout" 1]
           (App.__init__ AppConfig_default)).
  reflexivity.
Defined.

(** A call that raises leaves the counter where it was. *)
Lemma raising_tick_keeps_tick_count
    (now : Z) (fs : list Fault) (self self' : App.t) (m : string) :
  App.tick now fs self = (AssertionError m, self') ->
  App._tick_count self' = App._tick_count self.
Proof.
  tick_paths self fs; intros H; inversion H; reflexivity.
Qed.

(** The machine of [cfg_clear_after_1] one dropout tick after construction. *)
Definition alarmed_clear_after_1 : App.t :=
  snd (App.tick 0 [mkFault 0 "dropout" 1] (App.__init__ cfg_clear_after_1)).

(** C7. With [alarm_clear_after = 1] the call after a dropout tick, with no
    fault, stops at the assertion of [_transition] (the illegal
    [ALARMED -> NOMINAL] of C2): it returns no sequence, so no [APP_TICK],
    and the tick counter is still 1 where one increment per call would make
    it 2. *)
Theorem aborted_tick_does_not_advance_counter :
  App._tick_count alarmed_clear_after_1 = 1
  /\ App.tick 10 [] alarmed_clear_after_1
     = (AssertionError
          "Illegal transition ALARMED -> NOMINAL (reason=clear_committed)",
        App.mk cfg_clear_after_1 1 ALARMED 0 0)
  /\ App._tick_count (snd (App.tick 10 [] alarmed_clear_after_1)) = 1.
Proof. repeat split. Qed.

(* ------------------------------------------------------------------ *)
(** ** Replay *)

Lemma for_each_ext {S A : Type} (xs : list A) (f g : A -> M S unit) :
  (forall x, In x xs -> forall s, f x s = g x s) ->
  forall s, for_each xs f s = for_each xs g s.
Proof.
  induction xs as [| x xs IH]; intros Hfg s; [reflexivity |].
  simpl. unfold bind. rewrite (Hfg x (or_introl eq_refl) s).
  destruct (g x s) as [[[] | m] s']; [| reflexivity].
  apply IH. intros y Hy. apply Hfg. right. exact Hy.
Qed.

Lemma in_range (n t : Z) : In t (range n) -> 0 <= t < n.
Proof.
  unfold range. rewrite in_map_iff. intros (k & <- & Hk).
  apply in_seq in Hk. lia.
Qed.

(** One iteration of [run_app]'s loop reads the scenario through
    [faults_at_tick] only. *)
Lemma run_tick_reads_schedule (e1 e2 : ScenarioEngine) (t : Z) (r : Run) :
  faults_at_tick e1 t = faults_at_tick e2 t ->
  run_tick e1 t r = run_tick e2 t r.
Proof. intros H. unfold run_tick. rewrite H. reflexivity. Qed.

(** C3. Two runs of [run_app], each on a machine it constructs itself, with
    one configuration and engines that hand out the same faults at every
    tick of the run, give the same outcome: the same sequence of log records
    and so the same printed lines (or both stop at the same failed
    assertion). *)
Theorem replay_is_deterministic :
  forall (cfg : AppConfig) (e1 e2 : ScenarioEngine),
    (forall t : Z, 0 <= t < total_ticks cfg ->
                   faults_at_tick e1 t = faults_at_tick e2 t) ->
    run_app cfg e1 = run_app cfg e2
    /\ printed (run_app cfg e1) = printed (run_app cfg e2).
Proof.
  intros cfg e1 e2 Hsched.
  assert (Hrun : run_app cfg e1 = run_app cfg e2).
  { unfold run_app. unfold bind at 1 3. simpl.
    unfold bind at 1 3.
    rewrite (for_each_ext (range (total_ticks cfg)) (run_tick e1) (run_tick e2));
      [reflexivity |].
    intros t Ht r. apply run_tick_reads_schedule, Hsched, in_range, Ht. }
  split; [exact Hrun | rewrite Hrun; reflexivity].
Qed.

(** Two scenarios that list the same faults in different orders across
    ticks, the second with one more fault past the end of the run. *)
Definition scenario_a : ScenarioEngine :=
  mkScenarioEngine
    (mkScenario "a" [mkFault 0 "sensor_spike" 1200; mkFault 1 "sensor_spike" 1300;
                     mkFault 2 "dropout" 1]).

Definition scenario_b : ScenarioEngine :=
  mkScenarioEngine
    (mkScenario "a" [mkFault 2 "dropout" 1; mkFault 0 "sensor_spike" 1200;
                     mkFault 7 "dropout" 1; mkFault 1 "sensor_spike" 1300]).

Lemma replay_is_deterministic_witness :
  run_app (mkAppConfig 10 4 1000 2 2) scenario_a
    = run_app (mkAppConfig 10 4 1000 2 2) scenario_b
  /\ printed (run_app (mkAppConfig 10 4 1000 2 2) scenario_a)
     = printed (run_app (mkAppConfig 10 4 1000 2 2) scenario_b).
Proof.
  apply (replay_is_deterministic (mkAppConfig 10 4 1000 2 2) scenario_a scenario_b).
  simpl. intros t Ht.
  assert (Hcases : t = 0 \/ t = 1 \/ t = 2 \/ t = 3) by lia.
  destruct Hcases as [-> | [-> | [-> | ->]]]; reflexivity.
Defined.

(** The log of a run, as printed. *)
Example printed_run :
  printed (run_app (mkAppConfig 10 2 1000 2 2) scenario_a)
  = Returns
      ["t=000000ms | INFO | BOOT | tick_ms=10 total_ticks=2";
       "t=000000ms | WARN | FAULT_INJECTED | kind=sensor_spike value=1200 tick=0";
       "t=000000ms | INFO | APP_TICK | tick=0";
       "t=000000ms | INFO | STATE_TRANSITION | from=NOMINAL to=PENDING_RAISE reason=raise_pending";
       "t=000000ms | WARN | ALARM_PENDING_RAISE | reason=sensor_spike streak=1 needed=2 value=1200";
       "t=000010ms | WARN | FAULT_INJECTED | kind=sensor_spike value=1300 tick=1";
       "t=000010ms | INFO | APP_TICK | tick=1";
       "t=000010ms | INFO | STATE_TRANSITION | from=PENDING_RAISE to=ALARMED reason=raise_committed";
       "t=000010ms | ERROR | ALARM_RAISED | reason=sensor_spike value=1300";
       "t=000020ms | INFO | SHUTDOWN | reason=completed_ticks"].
Proof. vm_compute. reflexivity. Qed.

(* ------------------------------------------------------------------ *)
(** ** Mean time to clear *)

Lemma mean_time_to_clear_none (m : RunMetrics) :
  mean_time_to_clear_ms m = Value None <-> clear_durations_count m = 0.
Proof.
  unfold mean_time_to_clear_ms.
  destruct (Z.eqb_spec (clear_durations_count m) 0) as [Hz | Hn].
  - split; intros _; [exact Hz | reflexivity].
  - split; intros H; [| contradiction].
    destruct (true_divide _ _); discriminate H.
Qed.

Lemma mean_time_to_clear_some (m : RunMetrics) (x : spec_float) :
  mean_time_to_clear_ms m = Value (Some x) ->
  clear_durations_count m <> 0
  /\ true_divide (clear_durations_ms_total m) (clear_durations_count m) = Value x.
Proof.
  unfold mean_time_to_clear_ms.
  destruct (Z.eqb_spec (clear_durations_count m) 0) as [| Hn];
    [discriminate |].
  destruct (true_divide _ _) as [y | |]; intros H; inversion H; subst.
  split; [exact Hn | reflexivity].
Qed.

(** [/] on a few operands: a quotient that is not a float, a tie, a signed
    zero, an underflow, and the two exceptions. *)
Example true_divide_examples :
  true_divide 10 3 = Value (S754_finite false 7505999378950827 (-51))
  /\ true_divide (2 ^ 53 + 1) 1 = Value (S754_finite false 4503599627370496 1)
  /\ true_divide 0 (-5) = Value (S754_zero true)
  /\ true_divide 1 (10 ^ 400) = Value (S754_zero false)
  /\ true_divide (10 ^ 400) 1 = OverflowError
  /\ true_divide 1 0 = ZeroDivisionError.
Proof. repeat split; vm_compute; reflexivity. Qed.

(** A log with two alarms, cleared 20 ms and 40 ms after they were raised,
    with the ticks in between. *)
Definition two_clears (t1 t2 : Z) : list LogEvent :=
  [ALARM_RAISED_dropout t1; APP_TICK (t1 + 10) 1; ALARM_CLEARED (t1 + 20);
   ALARM_RAISED_spike t2 1200; ALARM_RAISED_dropout (t2 + 10);
   ALARM_CLEARED (t2 + 40)].

(** The float [30.0]. *)
Definition float_30 : spec_float := S754_finite false 8444249301319680 (-48).

(** A log whose one alarm is cleared [10 ** 400] ms after it was raised. *)
Definition late_clear : list LogEvent :=
  [ALARM_RAISED_dropout 0; ALARM_CLEARED (10 ^ 400)].

(** C9, as stated, fails where the quotient is beyond the floats: after a
    log with one clear, [10 ** 400] ms after the raise, the sample count is
    1 and [mean_time_to_clear_ms] returns nothing; the division raises
    [OverflowError]. And where the quotient is not a float, as for a sum of
    10 over 3 samples, what it returns is the float next to the quotient,
    not the quotient. *)
Lemma mean_time_to_clear_can_overflow :
  (exists (x : spec_float) (q : Q),
      mean_time_to_clear_ms (mkRunMetrics 3 3 0 0 0 0 0 10 3) = Value (Some x)
      /\ float_value x = Some q
      /\ ~ (q == 10 # 3)%Q)
  /\ clear_durations_count
    (MetricsCollector.snapshot
       (MetricsCollector.consume_all late_clear (MetricsCollector.__init__ 10))) = 1
  /\ clear_durations_ms_total
       (MetricsCollector.snapshot
          (MetricsCollector.consume_all late_clear (MetricsCollector.__init__ 10)))
     = 10 ^ 400
  /\ mean_time_to_clear_ms
       (MetricsCollector.snapshot
          (MetricsCollector.consume_all late_clear (MetricsCollector.__init__ 10)))
     = OverflowError.
Proof.
  split; [| repeat split; vm_compute; reflexivity].
  eexists. eexists. split; [vm_compute; reflexivity | split; [reflexivity |]].
  vm_compute. discriminate.
Qed.

Lemma two_clears_samples (tick_ms t1 t2 : Z) :
  clear_durations_ms_total
    (MetricsCollector.snapshot
       (MetricsCollector.consume_all (two_clears t1 t2)
          (MetricsCollector.__init__ tick_ms))) = 60
  /\ clear_durations_count
       (MetricsCollector.snapshot
          (MetricsCollector.consume_all (two_clears t1 t2)
             (MetricsCollector.__init__ tick_ms))) = 2.
Proof. split; cbv -[Z.add Z.sub]; lia. Qed.

(** C9, amended. [mean_time_to_clear_ms] returns [None] exactly when the
    sample count is 0; otherwise it evaluates [total / count], Python's true
    division of the two integers: it returns the float nearest to the sum of
    the clear durations divided by their count, or raises [OverflowError]
    when that quotient is beyond the floats. A log with two clears, 20 ms and
    40 ms after their raises, gives the float 30.0, and so does the log of a
    run with two such alarms. *)
Theorem mean_time_to_clear_is_sum_over_count :
  (forall m : RunMetrics,
      mean_time_to_clear_ms m = Value None <-> clear_durations_count m = 0)
  /\ (forall m : RunMetrics,
         clear_durations_count m <> 0 ->
         match true_divide (clear_durations_ms_total m) (clear_durations_count m) with
         | Value x => mean_time_to_clear_ms m = Value (Some x)
         | OverflowError => mean_time_to_clear_ms m = OverflowError
         | ZeroDivisionError => False
         end)
  /\ (forall tick_ms t1 t2 : Z,
         mean_time_to_clear_ms
           (MetricsCollector.snapshot
              (MetricsCollector.consume_all (two_clears t1 t2)
                 (MetricsCollector.__init__ tick_ms))) = Value (Some float_30))
  /\ (exists log : list LogEvent,
         run_app (mkAppConfig 10 8 1000 2 2)
           (mkScenarioEngine
              (mkScenario "two alarms"
                 [mkFault 0 "dropout" 1; mkFault 3 "dropout" 1;
                  mkFault 4 "dropout" 1; mkFault 5 "dropout" 1])) = Returns log
         /\ mean_time_to_clear_ms
              (MetricsCollector.snapshot
                 (MetricsCollector.consume_all log (MetricsCollector.__init__ 10)))
            = Value (Some float_30))
  /\ (exists q : Q, float_value float_30 = Some q /\ (q == 30)%Q).
Proof.
  split; [exact mean_time_to_clear_none |].
  split; [| split; [| split]].
  - intros m Hn. unfold mean_time_to_clear_ms, true_divide.
    destruct (Z.eqb_spec (clear_durations_count m) 0) as [| _]; [contradiction |].
    destruct (SFdiv 53 1024 _ _); reflexivity.
  - intros tms t1 t2. unfold mean_time_to_clear_ms.
    destruct (two_clears_samples tms t1 t2) as [-> ->]. vm_compute. reflexivity.
  - eexists. split; [vm_compute; reflexivity | vm_compute; reflexivity].
  - eexists. split; [reflexivity | vm_compute; reflexivity].
Qed.

(* ------------------------------------------------------------------ *)
(** ** The two state machines *)

(** Both machines, built with the default configuration, after a dropout
    tick and a nominal tick: each is in [PENDING_CLEAR]. *)
Definition pending_clear_app : App.t :=
  snd (App.tick 10 []
         (snd (App.tick 0 [mkFault 0 "dropout" 1] (App.__init__ AppConfig_default)))).

Definition pending_clear_test_app : TestApp.t :=
  snd (TestApp.tick 10 []
         (snd (TestApp.tick 0 [mkFault 0 "dropout" 1]
                 (TestApp.__init__ AppConfig_default)))).

(** C10. In [PENDING_CLEAR], the test module's machine called with a fault
    list that holds a [dropout] followed by a [sensor_spike]: its loop over
    the faults (the one of C1, under the same comment "dropout wins over
    spike") keeps the spike, so the call reads 1200, moves to
    [PENDING_RAISE] and returns where the assertion was to fail. *)
Theorem test_app_returns_on_dropout_before_spike :
  TestApp._state pending_clear_test_app = PENDING_CLEAR
  /\ existsb (fun f => (kind f =? "dropout")%string)
       [mkFault 2 "dropout" 1; mkFault 2 "sensor_spike" 1200] = true
  /\ TestApp.tick 20 [mkFault 2 "dropout" 1; mkFault 2 "sensor_spike" 1200]
       pending_clear_test_app
     = (Returns [APP_TICK 20 2;
                 STATE_TRANSITION 20 PENDING_CLEAR PENDING_RAISE "raise_pending";
                 ALARM_PENDING_RAISE 20 1 2 1200],
        TestApp.mk AppConfig_default 3 PENDING_RAISE false 1 0).
Proof. repeat split. Qed.

(** In [PENDING_CLEAR], a call whose reading is absent raises
    [AssertionError] in the test module's machine, whose table has no
    [PENDING_CLEAR -> ALARMED], and returns [ALARM_RAISED] with a transition
    to [ALARMED] in [src/app/app.py]. *)
Lemma machines_differ_on_dropout_while_clearing :
  forall (a : App.t) (d : TestApp.t) (now : Z) (fs : list Fault),
    App._state a = PENDING_CLEAR ->
    TestApp._state d = PENDING_CLEAR ->
    sensor_value fs = None ->
    existsb (AlarmState_eqb ALARMED) (TestApp._LEGAL_TRANSITIONS PENDING_CLEAR) = false
    /\ existsb (AlarmState_eqb ALARMED) (App._LEGAL_TRANSITIONS PENDING_CLEAR) = true
    /\ (exists d' : TestApp.t,
           TestApp.tick now fs d
           = (AssertionError
                (illegal_transition PENDING_CLEAR ALARMED "dropout_immediate"), d'))
    /\ (exists a' : App.t,
           App.tick now fs a
           = (Returns [APP_TICK now (App._tick_count a);
                       STATE_TRANSITION now PENDING_CLEAR ALARMED "dropout_returned";
                       ALARM_RAISED_dropout now], a')
           /\ App._state a' = ALARMED).
Proof.
  intros a [cfg tc st act rs cs] now fs Ha Hd Hs. simpl in Hd. subst st.
  split; [reflexivity | split; [reflexivity | split]].
  - unfold TestApp.tick. rewrite Hs. unfold_test_app. eexists. reflexivity.
  - rewrite (tick_dropout now fs a Hs), Ha. eexists. split; reflexivity.
Qed.

Lemma machines_differ_on_dropout_while_clearing_example :
  existsb (AlarmState_eqb ALARMED) (TestApp._LEGAL_TRANSITIONS PENDING_CLEAR) = false
  /\ existsb (AlarmState_eqb ALARMED) (App._LEGAL_TRANSITIONS PENDING_CLEAR) = true
  /\ (exists d' : TestApp.t,
         TestApp.tick 20 [mkFault 2 "dropout" 1] pending_clear_test_app
         = (AssertionError
              (illegal_transition PENDING_CLEAR ALARMED "dropout_immediate"), d'))
  /\ (exists a' : App.t,
         App.tick 20 [mkFault 2 "dropout" 1] pending_clear_app
         = (Returns [APP_TICK 20 (App._tick_count pending_clear_app);
                     STATE_TRANSITION 20 PENDING_CLEAR ALARMED "dropout_returned";
                     ALARM_RAISED_dropout 20], a')
         /\ App._state a' = ALARMED).
Proof.
  apply (machines_differ_on_dropout_while_clearing pending_clear_app
           pending_clear_test_app 20 [mkFault 2 "dropout" 1]).
  - reflexivity.
  - reflexivity.
  - reflexivity.
Defined.

(* ================================================================== *)
(** * Further properties of the code *)

(* ------------------------------------------------------------------ *)
(** ** The records of one tick *)

Ltac close_codes :=
  repeat split; unfold not; intros;
  cbv [codes map code APP_TICK STATE_TRANSITION ALARM_RAISED_dropout
       ALARM_RAISED_spike ALARM_PENDING_RAISE ALARM_PENDING_CLEAR ALARM_CLEARED]
    in *;
  simpl in *;
  repeat match goal with
         | H : _ \/ _ |- _ => destruct H
         | H : _ /\ _ |- _ => destruct H
         | H : False |- _ => destruct H
         | H : ?x <> ?x |- _ => destruct (H eq_refl)
         end;
  try discriminate; try congruence; try reflexivity; try lia; auto 8.

(** A call that returns emits [STATE_TRANSITION] at most once, exactly when
    it changed the state; the record then comes second, names the state
    before and the state after, and the move is one of the table. *)
Theorem state_transition_iff_state_changes :
  forall (now : Z) (fs : list Fault) (self self' : App.t) (out : list LogEvent),
    App.tick now fs self = (Returns out, self') ->
    (count_occ string_dec (codes out) "STATE_TRANSITION" <= 1)%nat
    /\ (In "STATE_TRANSITION" (codes out) <-> App._state self' <> App._state self)
    /\ (App._state self' <> App._state self ->
        exists reason : string,
          nth_error out 1
          = Some (STATE_TRANSITION now (App._state self) (App._state self') reason))
    /\ existsb (AlarmState_eqb (App._state self'))
         (App._LEGAL_TRANSITIONS (App._state self)) = true.
Proof.
  intros now fs self self' out.
  tick_paths self fs; intros H; inversion H; subst; clear H;
    (split; [| split; [| split]]);
    try (unfold_events; simpl; lia);
    try reflexivity;
    try (intros _; eexists; reflexivity);
    try (intros Hne; exfalso; apply Hne; reflexivity);
    close_codes.
Qed.

Lemma state_transition_iff_state_changes_witness :
  (count_occ string_dec
     (codes [APP_TICK 0 0; STATE_TRANSITION 0 NOMINAL ALARMED "dropout_immediate";
             ALARM_RAISED_dropout 0]) "STATE_TRANSITION" <= 1)%nat
  /\ (In "STATE_TRANSITION"
        (codes [APP_TICK 0 0; STATE_TRANSITION 0 NOMINAL ALARMED "dropout_immediate";
                ALARM_RAISED_dropout 0])
      <-> App._state (App.mk AppConfig_default 1 ALARMED 0 0)
          <> App._state (App.__init__ AppConfig_default))
  /\ (App._state (App.mk AppConfig_default 1 ALARMED 0 0)
      <> App._state (App.__init__ AppConfig_default) ->
      exists reason : string,
        nth_error [APP_TICK 0 0; STATE_TRANSITION 0 NOMINAL ALARMED "dropout_immediate";
                   ALARM_RAISED_dropout 0] 1
        = Some (STATE_TRANSITION 0 (App._state (App.__init__ AppConfig_default))
                  (App._state (App.mk AppConfig_default 1 ALARMED 0 0)) reason))
  /\ existsb (AlarmState_eqb (App._state (App.mk AppConfig_default 1 ALARMED 0 0)))
       (App._LEGAL_TRANSITIONS (App._state (App.__init__ AppConfig_default))) = true.
Proof.
  apply (state_transition_iff_state_changes 0 [mkFault 0 "dropout" 1]
           (App.__init__ AppConfig_default)).
  reflexivity.
Defined.

(** The terminal records of a call that returns tell the state it left the
    machine in: [ALARM_RAISED] only on entering [ALARMED], [ALARM_CLEARED]
    only on leaving [PENDING_CLEAR] for [NOMINAL], never both; and the
    machine never enters [ALARMED] without [ALARM_RAISED]. Every record
    carries the call's time and there are at most three of them. *)
Theorem terminal_records_match_state :
  forall (now : Z) (fs : list Fault) (self self' : App.t) (out : list LogEvent),
    App.tick now fs self = (Returns out, self') ->
    (In "ALARM_RAISED" (codes out) ->
     App._state self' = ALARMED /\ App._state self <> ALARMED)
    /\ (In "ALARM_CLEARED" (codes out) ->
        App._state self' = NOMINAL /\ App._state self = PENDING_CLEAR)
    /\ ~ (In "ALARM_RAISED" (codes out) /\ In "ALARM_CLEARED" (codes out))
    /\ (App._state self' = ALARMED -> App._state self <> ALARMED ->
        In "ALARM_RAISED" (codes out))
    /\ Forall (fun e => t_ms e = now) out
    /\ (List.length out <= 3)%nat.
Proof.
  intros now fs self self' out.
  tick_paths self fs; intros H; inversion H; subst; clear H;
    (split; [| split; [| split; [| split; [| split]]]]);
    try (simpl; lia);
    try (match goal with |- Forall _ _ => repeat constructor end);
    try (intros [? ?]);
    close_codes.
Qed.

(** The call used as the example of the two theorems above. *)
Definition first_dropout_out : list LogEvent :=
  [APP_TICK 0 0; STATE_TRANSITION 0 NOMINAL ALARMED "dropout_immediate";
   ALARM_RAISED_dropout 0].

Lemma terminal_records_match_state_witness :
  (In "ALARM_RAISED" (codes first_dropout_out) ->
   App._state alarmed_after_dropout = ALARMED
   /\ App._state (App.__init__ AppConfig_default) <> ALARMED)
  /\ (In "ALARM_CLEARED" (codes first_dropout_out) ->
      App._state alarmed_after_dropout = NOMINAL
      /\ App._state (App.__init__ AppConfig_default) = PENDING_CLEAR)
  /\ ~ (In "ALARM_RAISED" (codes first_dropout_out)
        /\ In "ALARM_CLEARED" (codes first_dropout_out))
  /\ (App._state alarmed_after_dropout = ALARMED ->
      App._state (App.__init__ AppConfig_default) <> ALARMED ->
      In "ALARM_RAISED" (codes first_dropout_out))
  /\ Forall (fun e => t_ms e = 0) first_dropout_out
  /\ (List.length first_dropout_out <= 3)%nat.
Proof.
  apply (terminal_records_match_state 0 [mkFault 0 "dropout" 1]
           (App.__init__ AppConfig_default)).
  reflexivity.
Defined.

(* ------------------------------------------------------------------ *)
(** ** Which fault decides the reading *)

(** The two kinds the loop over the faults looks for. *)
Definition recognised (f : Fault) : bool :=
  (kind f =? "dropout")%string || (kind f =? "sensor_spike")%string.

Lemma sensor_step_unrecognised (sv : option Z) (f : Fault) :
  recognised f = false -> sensor_step sv f = sv.
Proof.
  unfold recognised, sensor_step. intros H.
  apply orb_false_iff in H. destruct H as [-> ->]. reflexivity.
Qed.

Lemma fold_sensor_step_filter (fs : list Fault) :
  forall sv : option Z,
    fold_left sensor_step (filter recognised fs) sv = fold_left sensor_step fs sv.
Proof.
  induction fs as [| f fs IH]; intros sv; [reflexivity |].
  simpl. destruct (recognised f) eqn:Hf.
  - simpl. apply IH.
  - rewrite (sensor_step_unrecognised sv f Hf). apply IH.
Qed.

(** Faults of any other kind change neither the reading nor the call. *)
Theorem unrecognised_faults_are_ignored :
  forall (now : Z) (fs : list Fault) (self : App.t),
    sensor_value (filter recognised fs) = sensor_value fs
    /\ App.tick now (filter recognised fs) self = App.tick now fs self.
Proof.
  intros now fs self.
  assert (H : sensor_value (filter recognised fs) = sensor_value fs)
    by apply fold_sensor_step_filter.
  split; [exact H | apply tick_reads_sensor_value, H].
Qed.

(** The reading is decided by the last fault of a recognised kind, wherever
    it stands: absent for a [dropout], the fault's value for a
    [sensor_spike], and the baseline 500 when there is none. *)
Theorem last_recognised_fault_decides :
  forall fs : list Fault,
    sensor_value fs =
      match find recognised (rev fs) with
      | Some f => if (kind f =? "dropout")%string then None else Some (value f)
      | None => Some 500
      end.
Proof.
  induction fs as [| f fs IH] using rev_ind; [reflexivity |].
  rewrite sensor_value_app, rev_app_distr. simpl.
  unfold recognised at 1. unfold sensor_step.
  destruct (kind f =? "dropout")%string eqn:Hd; simpl;
    [rewrite Hd; reflexivity |].
  destruct (kind f =? "sensor_spike")%string eqn:Hsp; simpl;
    [rewrite Hd; reflexivity | exact IH].
Qed.

(* ------------------------------------------------------------------ *)
(** ** Runs of calls *)

Lemma tick_all_app (xs ys : list (Z * list Fault)) :
  forall self : App.t,
    tick_all (xs ++ ys) self =
      match tick_all xs self with
      | (Returns outs, self1) =>
          match tick_all ys self1 with
          | (Returns outs', self2) => (Returns (outs ++ outs')%list, self2)
          | (AssertionError m, self2) => (AssertionError m, self2)
          end
      | (AssertionError m, self1) => (AssertionError m, self1)
      end.
Proof.
  induction xs as [| [now fs] xs IH]; intros self.
  - simpl. unfold ret. destruct (tick_all ys self) as [[outs | m] self2]; reflexivity.
  - simpl. unfold bind.
    destruct (App.tick now fs self) as [[out | m] self1]; [| reflexivity].
    rewrite IH.
    destruct (tick_all xs self1) as [[outs | m] self2]; [| reflexivity].
    unfold ret. simpl.
    destruct (tick_all ys self2) as [[outs' | m] self3]; reflexivity.
Qed.

Lemma tick_count_after_return
    (now : Z) (fs : list Fault) (self self' : App.t) (out : list LogEvent) :
  App.tick now fs self = (Returns out, self') ->
  App._tick_count self' = App._tick_count self + 1
  /\ hd_error out = Some (APP_TICK now (App._tick_count self)).
Proof.
  tick_paths self fs; intros H; inversion H; split; reflexivity.
Qed.

(** After a run of calls that all returned, the counter has advanced by
    their number, and the k-th output starts with the [APP_TICK] of the
    k-th call's time and of the counter's value at that call. *)
Theorem tick_all_counts_calls :
  forall (calls : list (Z * list Fault)) (self self' : App.t)
         (outs : list (list LogEvent)),
    tick_all calls self = (Returns outs, self') ->
    App._tick_count self' = App._tick_count self + Z.of_nat (List.length calls)
    /\ List.length outs = List.length calls
    /\ forall (k : nat) (call : Z * list Fault) (out : list LogEvent),
         nth_error calls k = Some call ->
         nth_error outs k = Some out ->
         hd_error out = Some (APP_TICK (fst call) (App._tick_count self + Z.of_nat k)).
Proof.
  induction calls as [| [now fs] rest IH]; intros self self' outs H.
  - inversion H; subst. simpl. repeat split; try lia.
    intros [| k] call out Hc; discriminate Hc.
  - simpl in H. unfold bind at 1 in H.
    destruct (App.tick now fs self) as [[out1 | m] self1] eqn:Htick;
      [| discriminate H].
    unfold bind at 1 in H.
    destruct (tick_all rest self1) as [[outs' | m] self2] eqn:Hrest;
      [| discriminate H].
    inversion H; subst; clear H.
    destruct (tick_count_after_return _ _ _ _ _ Htick) as [Htc Hhd].
    destruct (IH _ _ _ Hrest) as (Hcount & Hlen & Hnth).
    repeat split.
    + rewrite Hcount, Htc. simpl List.length. lia.
    + simpl. congruence.
    + intros [| k] call out Hc Ho; simpl in Hc, Ho.
      * inversion Hc; inversion Ho; subst. simpl. rewrite Z.add_0_r. exact Hhd.
      * rewrite (Hnth k call out Hc Ho), Htc. do 2 f_equal. lia.
Qed.

Lemma tick_all_counts_calls_witness :
  App._tick_count (App.mk AppConfig_default 3 NOMINAL 0 0)
  = App._tick_count (App.__init__ AppConfig_default)
    + Z.of_nat (List.length [(0, [mkFault 0 "dropout" 1]); (10, @nil Fault); (20, [])])
  /\ List.length
       [first_dropout_out;
        [APP_TICK 10 1; STATE_TRANSITION 10 ALARMED PENDING_CLEAR "clear_pending";
         ALARM_PENDING_CLEAR 10 1 2 500];
        [APP_TICK 20 2; STATE_TRANSITION 20 PENDING_CLEAR NOMINAL "clear_committed";
         ALARM_CLEARED 20]]
     = List.length [(0, [mkFault 0 "dropout" 1]); (10, @nil Fault); (20, [])]
  /\ forall (k : nat) (call : Z * list Fault) (out : list LogEvent),
       nth_error [(0, [mkFault 0 "dropout" 1]); (10, []); (20, [])] k = Some call ->
       nth_error
         [first_dropout_out;
          [APP_TICK 10 1; STATE_TRANSITION 10 ALARMED PENDING_CLEAR "clear_pending";
           ALARM_PENDING_CLEAR 10 1 2 500];
          [APP_TICK 20 2; STATE_TRANSITION 20 PENDING_CLEAR NOMINAL "clear_committed";
           ALARM_CLEARED 20]] k = Some out ->
       hd_error out
       = Some (APP_TICK (fst call)
                 (App._tick_count (App.__init__ AppConfig_default) + Z.of_nat k)).
Proof.
  apply (tick_all_counts_calls [(0, [mkFault 0 "dropout" 1]); (10, []); (20, [])]
           (App.__init__ AppConfig_default)).
  reflexivity.
Defined.

(* ------------------------------------------------------------------ *)
(** ** Debouncing *)

(** [is_alarm_condition] of [tick], for a present reading; a call with an
    absent reading is neither of the two. *)
Definition alarm_reading (cfg : AppConfig) (call : Z * list Fault) : bool :=
  match sensor_value (snd call) with
  | Some v => v >=? sensor_alarm_threshold cfg
  | None => false
  end.

Definition nominal_reading (cfg : AppConfig) (call : Z * list Fault) : bool :=
  match sensor_value (snd call) with
  | Some v => negb (v >=? sensor_alarm_threshold cfg)
  | None => false
  end.

Definition pending_raise_out (out : list LogEvent) : Prop :=
  In "ALARM_PENDING_RAISE" (codes out) /\ ~ In "ALARM_RAISED" (codes out).

Definition pending_clear_out (out : list LogEvent) : Prop :=
  In "ALARM_PENDING_CLEAR" (codes out) /\ ~ In "ALARM_CLEARED" (codes out).

Lemma tick_raise_pending (now : Z) (fs : list Fault) (self : App.t) :
  App._state self = NOMINAL \/ App._state self = PENDING_RAISE ->
  alarm_reading (App._cfg self) (now, fs) = true ->
  App._raise_streak self + 1 < alarm_raise_after (App._cfg self) ->
  exists out : list LogEvent,
    App.tick now fs self
    = (Returns out,
       App.mk (App._cfg self) (App._tick_count self + 1) PENDING_RAISE
         (App._raise_streak self + 1) 0)
    /\ pending_raise_out out.
Proof.
  unfold alarm_reading, pending_raise_out. simpl snd.
  tick_paths self fs; intros Hst Hread Hlt';
    try discriminate Hread; try (rewrite Hread in Hcond; discriminate Hcond);
    try (destruct Hst; discriminate); try lia;
    (eexists; split; [reflexivity | close_codes]).
Qed.

Lemma tick_raise_commit (now : Z) (fs : list Fault) (self : App.t) :
  App._state self = NOMINAL \/ App._state self = PENDING_RAISE ->
  alarm_reading (App._cfg self) (now, fs) = true ->
  alarm_raise_after (App._cfg self) <= App._raise_streak self + 1 ->
  exists out : list LogEvent,
    App.tick now fs self
    = (Returns out, App.mk (App._cfg self) (App._tick_count self + 1) ALARMED 0 0)
    /\ In "ALARM_RAISED" (codes out).
Proof.
  unfold alarm_reading. simpl snd.
  tick_paths self fs; intros Hst Hread Hlt';
    try discriminate Hread; try (rewrite Hread in Hcond; discriminate Hcond);
    try (destruct Hst; discriminate); try lia;
    (eexists; split; [reflexivity | close_codes]).
Qed.

Lemma tick_all_raise_pending (calls : list (Z * list Fault)) :
  forall self : App.t,
    App._state self = NOMINAL \/ App._state self = PENDING_RAISE ->
    Forall (fun call => alarm_reading (App._cfg self) call = true) calls ->
    App._raise_streak self + Z.of_nat (List.length calls)
      < alarm_raise_after (App._cfg self) ->
    exists (outs : list (list LogEvent)) (self' : App.t),
      tick_all calls self = (Returns outs, self')
      /\ List.length outs = List.length calls
      /\ Forall pending_raise_out outs
      /\ App._cfg self' = App._cfg self
      /\ (App._state self' = NOMINAL \/ App._state self' = PENDING_RAISE)
      /\ App._raise_streak self'
         = App._raise_streak self + Z.of_nat (List.length calls)
      /\ App._tick_count self'
         = App._tick_count self + Z.of_nat (List.length calls).
Proof.
  induction calls as [| [now fs] rest IH]; intros self Hst Hall Hlt.
  - exists [], self. simpl. repeat split; auto; lia.
  - inversion Hall as [| ? ? Hread Hrest]; subst.
    simpl List.length in Hlt.
    destruct (tick_raise_pending now fs self Hst Hread) as (out & Htick & Hout);
      [lia |].
    destruct (IH (App.mk (App._cfg self) (App._tick_count self + 1) PENDING_RAISE
                    (App._raise_streak self + 1) 0))
      as (outs & self' & Hrun & Hlen & Houts & Hcfg & Hst' & Hrs & Htc);
      [right; reflexivity | exact Hrest | simpl; lia |].
    exists (out :: outs), self'. simpl in Hcfg, Hrs, Htc.
    repeat split; auto.
    + simpl. unfold bind. rewrite Htick, Hrun. reflexivity.
    + simpl. congruence.
    + simpl List.length. lia.
    + simpl List.length. lia.
Qed.

(** Raise debounce. On a fresh machine with [alarm_raise_after = n >= 1],
    [n] calls in a row whose reading is at or above the threshold return
    [ALARM_PENDING_RAISE] without [ALARM_RAISED] for the first [n - 1] and
    [ALARM_RAISED] for the last, which leaves the machine [ALARMED] with both
    streaks at 0. *)
Theorem raise_commits_on_nth_alarm_tick :
  forall (cfg : AppConfig) (pre : list (Z * list Fault)) (last : Z * list Fault),
    alarm_raise_after cfg = Z.of_nat (List.length pre) + 1 ->
    Forall (fun call => alarm_reading cfg call = true) (pre ++ [last]) ->
    exists (outs : list (list LogEvent)) (out : list LogEvent),
      tick_all (pre ++ [last]) (App.__init__ cfg)
      = (Returns (outs ++ [out])%list,
         App.mk cfg (Z.of_nat (List.length pre) + 1) ALARMED 0 0)
      /\ List.length outs = List.length pre
      /\ Forall pending_raise_out outs
      /\ In "ALARM_RAISED" (codes out).
Proof.
  intros cfg pre [now fs] Hra Hall.
  apply Forall_app in Hall. destruct Hall as [Hpre Hlast].
  inversion Hlast as [| ? ? Hread _]; subst.
  destruct (tick_all_raise_pending pre (App.__init__ cfg))
    as (outs & self1 & Hrun & Hlen & Houts & Hcfg & Hst & Hrs & Htc);
    [left; reflexivity | exact Hpre | simpl; lia |].
  simpl in Hcfg, Hrs, Htc.
  destruct (tick_raise_commit now fs self1 Hst) as (out & Htick & Hout);
    [rewrite Hcfg; exact Hread | rewrite Hcfg, Hrs; lia |].
  exists outs, out. repeat split; auto.
  rewrite tick_all_app, Hrun. simpl. unfold bind. rewrite Htick.
  unfold ret. rewrite Hcfg, Htc. reflexivity.
Qed.

Lemma raise_commits_on_nth_alarm_tick_witness :
  exists (outs : list (list LogEvent)) (out : list LogEvent),
    tick_all ([(0, [mkFault 0 "sensor_spike" 1200]);
               (10, [mkFault 1 "sensor_spike" 1000])]
              ++ [(20, [mkFault 2 "sensor_spike" 5000])])
      (App.__init__ (mkAppConfig 10 50 1000 3 2))
    = (Returns (outs ++ [out])%list,
       App.mk (mkAppConfig 10 50 1000 3 2)
         (Z.of_nat
            (List.length [(0, [mkFault 0 "sensor_spike" 1200]);
                          (10, [mkFault 1 "sensor_spike" 1000])]) + 1) ALARMED 0 0)
    /\ List.length outs
       = List.length [(0, [mkFault 0 "sensor_spike" 1200]);
                      (10, [mkFault 1 "sensor_spike" 1000])]
    /\ Forall pending_raise_out outs
    /\ In "ALARM_RAISED" (codes out).
Proof.
  apply (raise_commits_on_nth_alarm_tick (mkAppConfig 10 50 1000 3 2)
           [(0, [mkFault 0 "sensor_spike" 1200]);
            (10, [mkFault 1 "sensor_spike" 1000])]
           (20, [mkFault 2 "sensor_spike" 5000])).
  - reflexivity.
  - repeat constructor.
Defined.

Lemma tick_clear_pending (now : Z) (fs : list Fault) (self : App.t) :
  App._state self = ALARMED \/ App._state self = PENDING_CLEAR ->
  nominal_reading (App._cfg self) (now, fs) = true ->
  App._clear_streak self + 1 < alarm_clear_after (App._cfg self) ->
  exists out : list LogEvent,
    App.tick now fs self
    = (Returns out,
       App.mk (App._cfg self) (App._tick_count self + 1) PENDING_CLEAR 0
         (App._clear_streak self + 1))
    /\ pending_clear_out out.
Proof.
  unfold nominal_reading, pending_clear_out. simpl snd.
  tick_paths self fs; intros Hst Hread Hlt';
    try discriminate Hread; try (rewrite Hread in Hcond; discriminate Hcond);
    try (destruct Hst; discriminate); try lia;
    (eexists; split; [reflexivity | close_codes]).
Qed.

Lemma tick_clear_commit (now : Z) (fs : list Fault) (self : App.t) :
  App._state self = PENDING_CLEAR ->
  nominal_reading (App._cfg self) (now, fs) = true ->
  alarm_clear_after (App._cfg self) <= App._clear_streak self + 1 ->
  exists out : list LogEvent,
    App.tick now fs self
    = (Returns out, App.mk (App._cfg self) (App._tick_count self + 1) NOMINAL 0 0)
    /\ In "ALARM_CLEARED" (codes out).
Proof.
  unfold nominal_reading. simpl snd.
  tick_paths self fs; intros Hst Hread Hlt';
    try discriminate Hread; try discriminate Hst; try lia;
    (eexists; split; [reflexivity | close_codes]).
Qed.

Lemma tick_all_clear_pending (calls : list (Z * list Fault)) :
  forall self : App.t,
    App._state self = ALARMED \/ App._state self = PENDING_CLEAR ->
    Forall (fun call => nominal_reading (App._cfg self) call = true) calls ->
    App._clear_streak self + Z.of_nat (List.length calls)
      < alarm_clear_after (App._cfg self) ->
    exists (outs : list (list LogEvent)) (self' : App.t),
      tick_all calls self = (Returns outs, self')
      /\ List.length outs = List.length calls
      /\ Forall pending_clear_out outs
      /\ App._cfg self' = App._cfg self
      /\ App._state self'
         = match calls with [] => App._state self | _ :: _ => PENDING_CLEAR end
      /\ App._clear_streak self'
         = App._clear_streak self + Z.of_nat (List.length calls)
      /\ App._tick_count self'
         = App._tick_count self + Z.of_nat (List.length calls).
Proof.
  induction calls as [| [now fs] rest IH]; intros self Hst Hall Hlt.
  - exists [], self. simpl. repeat split; auto; lia.
  - inversion Hall as [| ? ? Hread Hrest]; subst.
    simpl List.length in Hlt.
    destruct (tick_clear_pending now fs self Hst Hread) as (out & Htick & Hout);
      [lia |].
    destruct (IH (App.mk (App._cfg self) (App._tick_count self + 1) PENDING_CLEAR 0
                    (App._clear_streak self + 1)))
      as (outs & self' & Hrun & Hlen & Houts & Hcfg & Hst' & Hcs & Htc);
      [right; reflexivity | exact Hrest | simpl; lia |].
    exists (out :: outs), self'. simpl in Hcfg, Hst', Hcs, Htc.
    repeat split; auto.
    + simpl. unfold bind. rewrite Htick, Hrun. reflexivity.
    + simpl. congruence.
    + rewrite Hst'. destruct rest; reflexivity.
    + simpl List.length. lia.
    + simpl List.length. lia.
Qed.

(** Clear debounce. From [ALARMED] or [PENDING_CLEAR], the nominal calls
    that bring the clear streak to [alarm_clear_after] return
    [ALARM_PENDING_CLEAR] without [ALARM_CLEARED], all but the last, and
    [ALARM_CLEARED] the last, which leaves the machine [NOMINAL] with both
    streaks at 0; from [ALARMED] this needs at least two calls. *)
Theorem clear_commits_on_nth_nominal_tick :
  forall (self : App.t) (pre : list (Z * list Fault)) (last : Z * list Fault),
    App._state self = ALARMED \/ App._state self = PENDING_CLEAR ->
    (App._state self = ALARMED -> pre <> []) ->
    alarm_clear_after (App._cfg self)
    = App._clear_streak self + Z.of_nat (List.length pre) + 1 ->
    Forall (fun call => nominal_reading (App._cfg self) call = true) (pre ++ [last]) ->
    exists (outs : list (list LogEvent)) (out : list LogEvent),
      tick_all (pre ++ [last]) self
      = (Returns (outs ++ [out])%list,
         App.mk (App._cfg self)
           (App._tick_count self + Z.of_nat (List.length pre) + 1) NOMINAL 0 0)
      /\ List.length outs = List.length pre
      /\ Forall pending_clear_out outs
      /\ In "ALARM_CLEARED" (codes out).
Proof.
  intros self pre [now fs] Hst Hpre Hca Hall.
  apply Forall_app in Hall. destruct Hall as [Hnom Hlast].
  inversion Hlast as [| ? ? Hread _]; subst.
  destruct (tick_all_clear_pending pre self Hst Hnom)
    as (outs & self1 & Hrun & Hlen & Houts & Hcfg & Hst1 & Hcs & Htc); [lia |].
  assert (Hpc : App._state self1 = PENDING_CLEAR).
  { rewrite Hst1. destruct pre; [| reflexivity].
    destruct Hst as [Ha | Hp]; [destruct (Hpre Ha eq_refl) | exact Hp]. }
  destruct (tick_clear_commit now fs self1 Hpc) as (out & Htick & Hout);
    [rewrite Hcfg; exact Hread | rewrite Hcfg, Hcs; lia |].
  exists outs, out. repeat split; auto.
  rewrite tick_all_app, Hrun. simpl. unfold bind. rewrite Htick.
  unfold ret. rewrite Hcfg, Htc. reflexivity.
Qed.

Lemma clear_commits_on_nth_nominal_tick_witness :
  exists (outs : list (list LogEvent)) (out : list LogEvent),
    tick_all ([(10, @nil Fault); (20, [mkFault 2 "sensor_spike" 900])] ++ [(30, [])])
      (App.mk (mkAppConfig 10 50 1000 2 3) 1 ALARMED 0 0)
    = (Returns (outs ++ [out])%list,
       App.mk (App._cfg (App.mk (mkAppConfig 10 50 1000 2 3) 1 ALARMED 0 0))
         (App._tick_count (App.mk (mkAppConfig 10 50 1000 2 3) 1 ALARMED 0 0)
          + Z.of_nat
              (List.length [(10, @nil Fault); (20, [mkFault 2 "sensor_spike" 900])])
          + 1) NOMINAL 0 0)
    /\ List.length outs
       = List.length [(10, @nil Fault); (20, [mkFault 2 "sensor_spike" 900])]
    /\ Forall pending_clear_out outs
    /\ In "ALARM_CLEARED" (codes out).
Proof.
  apply (clear_commits_on_nth_nominal_tick
           (App.mk (mkAppConfig 10 50 1000 2 3) 1 ALARMED 0 0)
           [(10, []); (20, [mkFault 2 "sensor_spike" 900])] (30, [])).
  - left. reflexivity.
  - intros _. discriminate.
  - reflexivity.
  - repeat constructor.
Defined.

(** No dropout and no two alarm readings in a row, [prev] telling whether
    the call before the list had an alarm reading. *)
Fixpoint isolated_spikes (cfg : AppConfig) (prev : bool)
    (calls : list (Z * list Fault)) : bool :=
  match calls with
  | [] => true
  | call :: rest =>
      if alarm_reading cfg call then negb prev && isolated_spikes cfg true rest
      else nominal_reading cfg call && isolated_spikes cfg false rest
  end.

Lemma tick_nominal_rests (now : Z) (fs : list Fault) (self : App.t) :
  App._state self = NOMINAL \/ App._state self = PENDING_RAISE ->
  nominal_reading (App._cfg self) (now, fs) = true ->
  exists out : list LogEvent,
    App.tick now fs self
    = (Returns out, App.mk (App._cfg self) (App._tick_count self + 1) NOMINAL 0 0)
    /\ ~ In "ALARM_RAISED" (codes out).
Proof.
  unfold nominal_reading. simpl snd.
  tick_paths self fs; intros Hst Hread;
    try discriminate Hread; try (destruct Hst; discriminate);
    (eexists; split; [reflexivity | close_codes]).
Qed.

Lemma tick_all_isolated_spikes (calls : list (Z * list Fault)) :
  forall (prev : bool) (self : App.t),
    2 <= alarm_raise_after (App._cfg self) ->
    isolated_spikes (App._cfg self) prev calls = true ->
    (if prev
     then App._state self = PENDING_RAISE
     else App._state self = NOMINAL /\ App._raise_streak self = 0) ->
    exists (outs : list (list LogEvent)) (self' : App.t),
      tick_all calls self = (Returns outs, self')
      /\ List.length outs = List.length calls
      /\ Forall (fun out => ~ In "ALARM_RAISED" (codes out)) outs
      /\ (App._state self' = NOMINAL \/ App._state self' = PENDING_RAISE).
Proof.
  induction calls as [| [now fs] rest IH]; intros prev self Hra Hiso Hinv.
  - exists [], self. simpl. repeat split; auto.
    destruct prev; [right; exact Hinv | left; apply Hinv].
  - simpl in Hiso.
    destruct (alarm_reading (App._cfg self) (now, fs)) eqn:Hread.
    + apply andb_true_iff in Hiso. destruct Hiso as [Hprev Hrest].
      destruct prev; [discriminate Hprev |]. destruct Hinv as [Hst Hrs].
      destruct (tick_raise_pending now fs self (or_introl Hst) Hread)
        as (out & Htick & Hout); [lia |].
      destruct (IH true
                  (App.mk (App._cfg self) (App._tick_count self + 1) PENDING_RAISE
                     (App._raise_streak self + 1) 0) Hra Hrest eq_refl)
        as (outs & self' & Hrun & Hlen & Houts & Hst').
      exists (out :: outs), self'. repeat split; auto.
      * simpl. unfold bind. rewrite Htick, Hrun. reflexivity.
      * simpl. congruence.
      * constructor; [apply Hout | exact Houts].
    + apply andb_true_iff in Hiso. destruct Hiso as [Hnom Hrest].
      assert (Hst : App._state self = NOMINAL \/ App._state self = PENDING_RAISE)
        by (destruct prev; [right; exact Hinv | left; apply Hinv]).
      destruct (tick_nominal_rests now fs self Hst Hnom) as (out & Htick & Hout).
      destruct (IH false
                  (App.mk (App._cfg self) (App._tick_count self + 1) NOMINAL 0 0)
                  Hra Hrest (conj eq_refl eq_refl))
        as (outs & self' & Hrun & Hlen & Houts & Hst').
      exists (out :: outs), self'. repeat split; auto.
      * simpl. unfold bind. rewrite Htick, Hrun. reflexivity.
      * simpl. congruence.
Qed.

(** Noise rejection. With [alarm_raise_after >= 2], a fresh machine fed
    calls without dropout and without two alarm readings in a row returns
    from every call, never emits [ALARM_RAISED] and never leaves
    [NOMINAL]/[PENDING_RAISE]. *)
Theorem isolated_spikes_never_raise :
  forall (cfg : AppConfig) (calls : list (Z * list Fault)),
    2 <= alarm_raise_after cfg ->
    isolated_spikes cfg false calls = true ->
    exists (outs : list (list LogEvent)) (self' : App.t),
      tick_all calls (App.__init__ cfg) = (Returns outs, self')
      /\ List.length outs = List.length calls
      /\ Forall (fun out => ~ In "ALARM_RAISED" (codes out)) outs
      /\ (App._state self' = NOMINAL \/ App._state self' = PENDING_RAISE).
Proof.
  intros cfg calls Hra Hiso.
  apply (tick_all_isolated_spikes calls false (App.__init__ cfg) Hra Hiso).
  split; reflexivity.
Qed.

Lemma isolated_spikes_never_raise_witness :
  exists (outs : list (list LogEvent)) (self' : App.t),
    tick_all [(0, [mkFault 0 "sensor_spike" 1200]); (10, []);
              (20, [mkFault 2 "sensor_spike" 1200]); (30, [mkFault 3 "noise" 9999])]
      (App.__init__ AppConfig_default) = (Returns outs, self')
    /\ List.length outs = 4%nat
    /\ Forall (fun out => ~ In "ALARM_RAISED" (codes out)) outs
    /\ (App._state self' = NOMINAL \/ App._state self' = PENDING_RAISE).
Proof.
  apply (isolated_spikes_never_raise AppConfig_default
           [(0, [mkFault 0 "sensor_spike" 1200]); (10, []);
            (20, [mkFault 2 "sensor_spike" 1200]); (30, [mkFault 3 "noise" 9999])]).
  - simpl. lia.
  - reflexivity.
Defined.

(* ------------------------------------------------------------------ *)
(** ** The two state machines, call by call *)

(** [tick_all] for the machine of the test module. *)
Fixpoint test_tick_all (calls : list (Z * list Fault))
    : M TestApp.t (list (list LogEvent)) :=
  match calls with
  | [] => ret []
  | (now, fs) :: rest =>
      (events <- TestApp.tick now fs ;;
       more <- test_tick_all rest ;;
       ret (events :: more))%py
  end.

(** No call of the list finds the machine of [src/app/app.py] in
    [PENDING_CLEAR] with an absent reading. *)
Fixpoint no_dropout_while_clearing (calls : list (Z * list Fault)) (self : App.t)
    : bool :=
  match calls with
  | [] => true
  | (now, fs) :: rest =>
      negb (AlarmState_eqb (App._state self) PENDING_CLEAR
            && match sensor_value fs with None => true | Some _ => false end)
      && no_dropout_while_clearing rest (snd (App.tick now fs self))
  end.

(** What the two objects share between calls: the test module's machine
    does not reset a streak when it commits, which leaves a stale count in
    the streak the state does not use. *)
Definition same_machine (a : App.t) (d : TestApp.t) : Prop :=
  App._cfg a = TestApp._cfg d
  /\ App._tick_count a = TestApp._tick_count d
  /\ App._state a = TestApp._state d
  /\ match App._state a with
     | NOMINAL | PENDING_RAISE => App._raise_streak a = TestApp._raise_streak d
     | ALARMED | PENDING_CLEAR => App._clear_streak a = TestApp._clear_streak d
     end.

Lemma tick_same_machine (now : Z) (fs : list Fault) (a : App.t) (d : TestApp.t) :
  same_machine a d ->
  AlarmState_eqb (App._state a) PENDING_CLEAR
  && match sensor_value fs with None => true | Some _ => false end = false ->
  fst (TestApp.tick now fs d) = fst (App.tick now fs a)
  /\ (returned (App.tick now fs a) = true ->
      same_machine (snd (App.tick now fs a)) (snd (TestApp.tick now fs d))).
Proof.
  intros (Hcfg & Htc & Hst & Hstreak) Hguard.
  destruct a as [cfg tc st rs cs], d as [cfg' tc' st' act rs' cs'].
  simpl in Hcfg, Htc, Hst, Hstreak, Hguard. subst cfg' tc' st'.
  unfold App.tick, TestApp.tick, same_machine, returned.
  destruct (sensor_value fs) as [v |]; unfold_app; unfold_test_app; simpl;
    try (destruct (v >=? sensor_alarm_threshold cfg) eqn:Hcond);
    destruct st; try discriminate Hguard; subst;
    unfold_app; unfold_test_app; simpl;
    repeat match goal with
           | |- context [if ?x <? ?y then _ else _] =>
               destruct (Z.ltb_spec x y); unfold_app; unfold_test_app; simpl
           end;
    (split; [reflexivity | intros Hret; try discriminate Hret; repeat split]).
Qed.

(** Fed the same calls from construction, the two machines return the same
    outputs, or stop at the same call with the same [AssertionError], as long
    as no call brings an absent reading in [PENDING_CLEAR]. *)
Theorem machines_agree_without_dropout_while_clearing :
  forall (cfg : AppConfig) (calls : list (Z * list Fault)),
    no_dropout_while_clearing calls (App.__init__ cfg) = true ->
    fst (test_tick_all calls (TestApp.__init__ cfg))
    = fst (tick_all calls (App.__init__ cfg)).
Proof.
  intros cfg calls.
  assert (Hinit : same_machine (App.__init__ cfg) (TestApp.__init__ cfg))
    by (repeat split).
  revert Hinit. generalize (App.__init__ cfg) (TestApp.__init__ cfg).
  induction calls as [| [now fs] rest IH]; intros a d Hsame Hguard;
    [reflexivity |].
  simpl in Hguard. apply andb_true_iff in Hguard. destruct Hguard as [Hg Hrest].
  apply negb_true_iff in Hg.
  destruct (tick_same_machine now fs a d Hsame Hg) as [Hout Hnext].
  simpl. unfold bind, ret.
  destruct (App.tick now fs a) as [[out | m] a1];
    destruct (TestApp.tick now fs d) as [[out' | m'] d1];
    simpl in Hout; try discriminate Hout; inversion Hout; subst;
    [| reflexivity].
  specialize (IH a1 d1 (Hnext eq_refl) Hrest).
  destruct (tick_all rest a1) as [[outs | m] a2];
    destruct (test_tick_all rest d1) as [[outs' | m'] d2];
    simpl in IH; try discriminate IH; inversion IH; subst; reflexivity.
Qed.

Lemma machines_agree_without_dropout_while_clearing_witness :
  fst (test_tick_all
         [(0, [mkFault 0 "sensor_spike" 1200]); (10, [mkFault 1 "sensor_spike" 1200]);
          (20, []); (30, [mkFault 3 "sensor_spike" 1500]); (40, [mkFault 4 "dropout" 1]);
          (50, []); (60, [])]
         (TestApp.__init__ AppConfig_default))
  = fst (tick_all
           [(0, [mkFault 0 "sensor_spike" 1200]); (10, [mkFault 1 "sensor_spike" 1200]);
            (20, []); (30, [mkFault 3 "sensor_spike" 1500]); (40, [mkFault 4 "dropout" 1]);
            (50, []); (60, [])]
           (App.__init__ AppConfig_default)).
Proof.
  apply (machines_agree_without_dropout_while_clearing AppConfig_default).
  reflexivity.
Defined.

(* ------------------------------------------------------------------ *)
(** ** What the metrics count *)

(** [sum(1 for e in log if e.code == c)] *)
Definition count_code (c : string) (log : list LogEvent) : Z :=
  Z.of_nat (List.length (filter (fun e => (code e =? c)%string) log)).

Ltac by_code e :=
  destruct e as [t l c m]; cbn [code t_ms msg level] in *;
  unfold MetricsCollector.consume; cbn [code t_ms msg level];
  destruct (String.eqb_spec c "FAULT_INJECTED") as [-> | ?];
  [| destruct (String.eqb_spec c "ALARM_RAISED") as [-> | ?];
     [| destruct (String.eqb_spec c "ALARM_CLEARED") as [-> | ?];
        [| destruct (String.eqb_spec c "APP_TICK") as [-> | ?]]]];
  cbn [String.eqb Ascii.eqb Bool.eqb andb].

Lemma consume_counts (e : LogEvent) (self : MetricsCollector.t) :
  let m := MetricsCollector._m self in
  let m' := MetricsCollector._m (MetricsCollector.consume e self) in
  MetricsCollector._tick_ms (MetricsCollector.consume e self)
  = MetricsCollector._tick_ms self
  /\ alarms_raised m' = alarms_raised m + count_code "ALARM_RAISED" [e]
  /\ alarms_cleared m' = alarms_cleared m + count_code "ALARM_CLEARED" [e]
  /\ faults_injected m' = faults_injected m + count_code "FAULT_INJECTED" [e]
  /\ alarmed_ms m' + nominal_ms m'
     = alarmed_ms m + nominal_ms m
       + MetricsCollector._tick_ms self * count_code "APP_TICK" [e].
Proof.
  unfold count_code. destruct self as [tms m0 al st].
  by_code e; simpl;
    unfold MetricsCollector.on_fault_injected, MetricsCollector.on_alarm_raised,
      MetricsCollector.on_alarm_cleared, MetricsCollector.on_app_tick;
    simpl;
    repeat match goal with
           | |- context [(?c =? ?d)%string] =>
               destruct (String.eqb_spec c d); try congruence; simpl
           | |- context [if ?b then _ else _] => destruct b; simpl
           | |- context [match ?o with Some _ => _ | None => _ end] =>
               destruct o; simpl
           end;
    repeat split; lia.
Qed.

Lemma count_code_cons (c : string) (e : LogEvent) (log : list LogEvent) :
  count_code c (e :: log) = count_code c [e] + count_code c log.
Proof.
  unfold count_code. simpl. destruct (code e =? c)%string; simpl List.length; lia.
Qed.

Lemma consume_all_counts (log : list LogEvent) :
  forall self : MetricsCollector.t,
    let m := MetricsCollector._m self in
    let m' := MetricsCollector._m (MetricsCollector.consume_all log self) in
    MetricsCollector._tick_ms (MetricsCollector.consume_all log self)
    = MetricsCollector._tick_ms self
    /\ alarms_raised m' = alarms_raised m + count_code "ALARM_RAISED" log
    /\ alarms_cleared m' = alarms_cleared m + count_code "ALARM_CLEARED" log
    /\ faults_injected m' = faults_injected m + count_code "FAULT_INJECTED" log
    /\ alarmed_ms m' + nominal_ms m'
       = alarmed_ms m + nominal_ms m
         + MetricsCollector._tick_ms self * count_code "APP_TICK" log.
Proof.
  induction log as [| e log IH]; intros self; cbv zeta.
  - unfold count_code. simpl. repeat split; lia.
  - unfold MetricsCollector.consume_all. simpl.
    fold (MetricsCollector.consume_all log (MetricsCollector.consume e self)).
    specialize (IH (MetricsCollector.consume e self)). cbv zeta in IH.
    destruct IH as (I0 & I1 & I2 & I3 & I4).
    pose proof (consume_counts e self) as Hc. cbv zeta in Hc.
    destruct Hc as (C0 & C1 & C2 & C3 & C4).
    rewrite !(count_code_cons _ e log).
    rewrite I0, I1, I2, I3, I4, C0, C1, C2, C3, C4.
    repeat split; lia.
Qed.

(** A fresh collector that has consumed a log holds the number of
    [ALARM_RAISED], [ALARM_CLEARED] and [FAULT_INJECTED] records of the log,
    and has attributed one tick period per [APP_TICK] record to the alarmed
    or to the nominal time. *)
Theorem metrics_count_the_log :
  forall (tick_ms : Z) (log : list LogEvent),
    let m := MetricsCollector.snapshot
               (MetricsCollector.consume_all log (MetricsCollector.__init__ tick_ms)) in
    alarms_raised m = count_code "ALARM_RAISED" log
    /\ alarms_cleared m = count_code "ALARM_CLEARED" log
    /\ faults_injected m = count_code "FAULT_INJECTED" log
    /\ alarmed_ms m + nominal_ms m = tick_ms * count_code "APP_TICK" log.
Proof.
  intros tms log. cbv zeta. unfold MetricsCollector.snapshot.
  pose proof (consume_all_counts log (MetricsCollector.__init__ tms)) as H.
  cbv zeta in H. simpl in H. destruct H as (_ & H1 & H2 & H3 & H4).
  repeat split; lia.
Qed.

(** What a collector keeps between two records: the window is open exactly
    when its start is recorded, and every duration sample is backed by a
    clear and by the raise that opened its window. *)
Definition window_ok (self : MetricsCollector.t) : Prop :=
  let m := MetricsCollector._m self in
  (MetricsCollector._alarmed self = true
   <-> MetricsCollector._alarm_start_ms self <> None)
  /\ 0 <= clear_durations_count m
  /\ clear_durations_count m <= alarms_cleared m
  /\ clear_durations_count m
     + (if MetricsCollector._alarmed self then 1 else 0) <= alarms_raised m.

Lemma consume_keeps_window_ok (e : LogEvent) (self : MetricsCollector.t) :
  window_ok self -> window_ok (MetricsCollector.consume e self).
Proof.
  unfold window_ok. destruct self as [tms m0 al st]. cbv zeta.
  cbn [MetricsCollector._m MetricsCollector._alarmed MetricsCollector._alarm_start_ms].
  intros (Hw & H0 & Hc & Hr).
  by_code e;
    unfold MetricsCollector.on_fault_injected, MetricsCollector.on_alarm_raised,
      MetricsCollector.on_alarm_cleared, MetricsCollector.on_app_tick;
    simpl;
    repeat match goal with
           | |- context [(?c =? ?d)%string] =>
               destruct (String.eqb_spec c d); try congruence; simpl
           | |- context [if contains ?p ?q then _ else _] =>
               destruct (contains p q); simpl
           end;
    destruct al, st; simpl in *;
    repeat split; intros; try discriminate; try congruence; try lia;
    try (apply Hw; assumption);
    try (destruct Hw as [Hw1 Hw2]; first [ discriminate (Hw2 ltac:(discriminate))
                                         | destruct (Hw1 eq_refl eq_refl) ]).
Qed.

Lemma consume_all_keeps_window_ok (log : list LogEvent) :
  forall self : MetricsCollector.t,
    window_ok self -> window_ok (MetricsCollector.consume_all log self).
Proof.
  unfold MetricsCollector.consume_all.
  induction log as [| e log IH]; intros self H; simpl; [exact H |].
  apply IH, consume_keeps_window_ok, H.
Qed.

(** Whatever the log, a fresh collector never holds more duration samples
    than [ALARM_CLEARED] records or than [ALARM_RAISED] records, and the
    mean time to clear is undefined whenever the log has no [ALARM_RAISED]
    or no [ALARM_CLEARED]. *)
Theorem samples_bounded_by_raises_and_clears :
  forall (tick_ms : Z) (log : list LogEvent),
    let m := MetricsCollector.snapshot
               (MetricsCollector.consume_all log (MetricsCollector.__init__ tick_ms)) in
    0 <= clear_durations_count m <= count_code "ALARM_CLEARED" log
    /\ clear_durations_count m <= count_code "ALARM_RAISED" log
    /\ (count_code "ALARM_RAISED" log = 0 \/ count_code "ALARM_CLEARED" log = 0 ->
        mean_time_to_clear_ms m = Value None).
Proof.
  intros tms log. cbv zeta. unfold MetricsCollector.snapshot.
  pose proof (consume_all_counts log (MetricsCollector.__init__ tms)) as Hc.
  cbv zeta in Hc. simpl in Hc. destruct Hc as (_ & H1 & H2 & _).
  assert (Hinit : window_ok (MetricsCollector.__init__ tms)).
  { unfold window_ok. simpl. repeat split; try lia; try discriminate.
    intros H. destruct (H eq_refl). }
  pose proof (consume_all_keeps_window_ok log _ Hinit) as (_ & K0 & Kc & Kr).
  set (self' := MetricsCollector.consume_all log (MetricsCollector.__init__ tms)) in *.
  assert (Kr' : clear_durations_count (MetricsCollector._m self')
                <= alarms_raised (MetricsCollector._m self'))
    by (destruct (MetricsCollector._alarmed self'); lia).
  repeat split; try lia.
  intros Hz. apply mean_time_to_clear_none. lia.
Qed.

(** A log whose records come in non-decreasing time. *)
Definition time_ordered (log : list LogEvent) : Prop :=
  StronglySorted Z.le (map t_ms log).

(** Between two records of a time-ordered log, seen at time [lo]: the sum of
    durations is not negative and an open window started no later than [lo]. *)
Definition durations_ok (lo : Z) (self : MetricsCollector.t) : Prop :=
  0 <= clear_durations_ms_total (MetricsCollector._m self)
  /\ forall s : Z, MetricsCollector._alarm_start_ms self = Some s -> s <= lo.

Lemma consume_keeps_durations_ok (lo : Z) (e : LogEvent) (self : MetricsCollector.t) :
  durations_ok lo self -> lo <= t_ms e ->
  durations_ok (t_ms e) (MetricsCollector.consume e self).
Proof.
  unfold durations_ok. destruct self as [tms m0 al st].
  cbn [MetricsCollector._m MetricsCollector._alarm_start_ms].
  intros (Ht & Hs) Hlo.
  by_code e;
    unfold MetricsCollector.on_fault_injected, MetricsCollector.on_alarm_raised,
      MetricsCollector.on_alarm_cleared, MetricsCollector.on_app_tick;
    simpl;
    repeat match goal with
           | |- context [(?c =? ?d)%string] =>
               destruct (String.eqb_spec c d); try congruence; simpl
           | |- context [if contains ?p ?q then _ else _] =>
               destruct (contains p q); simpl
           end;
    destruct al, st as [s0 |]; simpl in *;
    try (specialize (Hs s0 eq_refl));
    (split; [lia | intros s Heq; inversion Heq; subst; lia]).
Qed.

Lemma consume_all_keeps_durations_ok (log : list LogEvent) :
  forall (lo : Z) (self : MetricsCollector.t),
    durations_ok lo self ->
    Forall (fun e => lo <= t_ms e) log ->
    time_ordered log ->
    0 <= clear_durations_ms_total
           (MetricsCollector._m (MetricsCollector.consume_all log self)).
Proof.
  unfold MetricsCollector.consume_all, time_ordered.
  induction log as [| e log IH]; intros lo self Hok Hlo Hsorted; simpl.
  - apply Hok.
  - inversion Hlo as [| ? ? He Hrest]; subst.
    simpl in Hsorted. apply StronglySorted_inv in Hsorted.
    destruct Hsorted as [Hsorted Hhd].
    apply (IH (t_ms e)).
    + apply (consume_keeps_durations_ok lo); assumption.
    + rewrite Forall_map in Hhd. exact Hhd.
    + exact Hsorted.
Qed.

(** Shifting and rounding keep a mantissa that is not negative so. *)
Lemma shr_1_nonneg (mrs : shr_record) : 0 <= shr_m mrs -> 0 <= shr_m (shr_1 mrs).
Proof.
  destruct mrs as [m r sb]. simpl.
  destruct m as [| [p | p |] | [p | p |]]; simpl; lia.
Qed.

Lemma iter_shr_1_nonneg (p : positive) :
  forall mrs : shr_record, 0 <= shr_m mrs -> 0 <= shr_m (iter_pos shr_1 p mrs).
Proof.
  induction p as [p IH | p IH |]; intros mrs H; simpl.
  - apply IH, IH, shr_1_nonneg, H.
  - apply IH, IH, H.
  - apply shr_1_nonneg, H.
Qed.

Lemma shr_fexp_nonneg (m e : Z) (l : location) :
  0 <= m -> 0 <= shr_m (fst (shr_fexp 53 1024 m e l)).
Proof.
  intros Hm. unfold shr_fexp, shr.
  assert (H0 : 0 <= shr_m (shr_record_of_loc m l))
    by (destruct l as [| []]; exact Hm).
  destruct (fexp 53 1024 (Zdigits2 m + e) - e) as [| p | p]; cbn [fst];
    [exact H0 | apply iter_shr_1_nonneg, H0 | exact H0].
Qed.

Lemma binary_round_aux_nonneg (m e : Z) (l : location) :
  0 <= m ->
  match binary_round_aux 53 1024 false m e l with
  | S754_zero s | S754_infinity s | S754_finite s _ _ => s = false
  | S754_nan => False
  end.
Proof.
  intros Hm. unfold binary_round_aux.
  pose proof (shr_fexp_nonneg m e l Hm) as H1.
  destruct (shr_fexp 53 1024 m e l) as [mrs' e']. cbn [fst] in H1.
  assert (H2 : 0 <= round_nearest_even (shr_m mrs') (loc_of_shr_record mrs')).
  { unfold round_nearest_even.
    destruct (loc_of_shr_record mrs') as [| []]; try lia.
    destruct (Z.even (shr_m mrs')); lia. }
  pose proof (shr_fexp_nonneg _ e' loc_Exact H2) as H3.
  destruct (shr_fexp 53 1024 _ e' loc_Exact) as [mrs'' e'']. cbn [fst] in H3.
  destruct (shr_m mrs'') as [| p | p]; [reflexivity | | lia].
  destruct (e'' <=? 1024 - 53); reflexivity.
Qed.

(** The quotient of an integer that is not negative by a positive one is a
    float that stands for a number that is not negative. *)
Lemma true_divide_nonneg (a b : Z) (x : spec_float) :
  0 <= a -> 0 < b -> true_divide a b = Value x ->
  exists q : Q, float_value x = Some q /\ (0 <= q)%Q.
Proof.
  intros Ha Hb. unfold true_divide.
  destruct (Z.eqb_spec b 0) as [| _]; [lia |].
  destruct b as [| pb | pb]; try lia.
  destruct a as [| pa | pa]; try lia.
  - cbn. intros H. inversion H; subst. exists 0%Q. split; [reflexivity | apply Qle_refl].
  - cbn [exact_operand SFdiv xorb].
    destruct (SFdiv_core_binary 53 1024 (Z.pos pa) 0 (Z.pos pb) 0)
      as [[mz ez] lz] eqn:Hcore.
    assert (Hmz : 0 <= mz).
    { unfold SFdiv_core_binary in Hcore.
      set (m' := match _ with Z.pos _ => _ | 0 => _ | Z.neg _ => _ end) in Hcore.
      assert (Hm' : 0 <= m').
      { subst m'. destruct (0 - 0 - _); try lia. apply Z.shiftl_nonneg. lia. }
      destruct (Z.div_eucl m' (Z.pos pb)) as [q r] eqn:Hdiv.
      inversion Hcore; subst mz.
      assert (Hq : q = m' / Z.pos pb) by (unfold Z.div; rewrite Hdiv; reflexivity).
      rewrite Hq. apply Z.div_pos; lia. }
    pose proof (binary_round_aux_nonneg mz ez lz Hmz) as Hround.
    destruct (binary_round_aux 53 1024 false mz ez lz) as [s | s | | s m e];
      intros H; inversion H; subst; try contradiction.
    + exists 0%Q. split; [reflexivity | apply Qle_refl].
    + eexists. split; [reflexivity |].
      apply Qmult_le_0_compat; [unfold Qle; simpl; lia |].
      apply Qpower_0_le. unfold Qle; simpl; lia.
Qed.

(** On a log in non-decreasing time, the sum of clear durations a fresh
    collector holds is not negative, and neither is the mean time to clear
    when it is a float. *)
Theorem time_ordered_log_has_nonnegative_mean :
  forall (tick_ms : Z) (log : list LogEvent),
    time_ordered log ->
    let m := MetricsCollector.snapshot
               (MetricsCollector.consume_all log (MetricsCollector.__init__ tick_ms)) in
    0 <= clear_durations_ms_total m
    /\ forall x : spec_float,
         mean_time_to_clear_ms m = Value (Some x) ->
         exists q : Q, float_value x = Some q /\ (0 <= q)%Q.
Proof.
  intros tms log Hsorted. cbv zeta. unfold MetricsCollector.snapshot.
  assert (Htotal :
    0 <= clear_durations_ms_total
           (MetricsCollector._m
              (MetricsCollector.consume_all log (MetricsCollector.__init__ tms)))).
  { destruct log as [| e log]; [simpl; lia |].
    apply (consume_all_keeps_durations_ok (e :: log) (t_ms e)).
    - split; [simpl; lia | intros s H; discriminate H].
    - constructor; [lia |].
      unfold time_ordered in Hsorted. simpl in Hsorted.
      apply StronglySorted_inv in Hsorted. destruct Hsorted as [_ Hhd].
      rewrite Forall_map in Hhd. exact Hhd.
    - exact Hsorted. }
  split; [exact Htotal |].
  intros x Hx.
  assert (Hinit : window_ok (MetricsCollector.__init__ tms)).
  { unfold window_ok. simpl. repeat split; try lia; try discriminate.
    intros H. destruct (H eq_refl). }
  pose proof (consume_all_keeps_window_ok log _ Hinit) as (_ & K0 & _).
  apply mean_time_to_clear_some in Hx. destruct Hx as (Hne & Hdiv).
  eapply true_divide_nonneg; [exact Htotal | | exact Hdiv]. lia.
Qed.

Lemma time_ordered_log_has_nonnegative_mean_witness :
  0 <= clear_durations_ms_total
         (MetricsCollector.snapshot
            (MetricsCollector.consume_all (two_clears 0 100)
               (MetricsCollector.__init__ 10)))
  /\ forall x : spec_float,
       mean_time_to_clear_ms
         (MetricsCollector.snapshot
            (MetricsCollector.consume_all (two_clears 0 100)
               (MetricsCollector.__init__ 10))) = Value (Some x) ->
       exists q : Q, float_value x = Some q /\ (0 <= q)%Q.
Proof.
  apply (time_ordered_log_has_nonnegative_mean 10 (two_clears 0 100)).
  unfold time_ordered. simpl.
  repeat (constructor; [| repeat (constructor; try lia)]). constructor.
Defined.

(* ------------------------------------------------------------------ *)
(** ** What [run_app] logs *)

(** The calls [run_app] makes on its machine: tick [t] at time
    [t * tick_ms], with the faults the engine has for [t]. *)
Definition run_calls (cfg : AppConfig) (engine : ScenarioEngine)
    : list (Z * list Fault) :=
  map (fun t => (t * tick_ms cfg, faults_at_tick engine t)) (range (total_ticks cfg)).

(** The records of tick [t]: one [FAULT_INJECTED] per fault of the tick,
    then what the machine returned. *)
Definition tick_records (tms : Z) (engine : ScenarioEngine)
    (entry : Z * list LogEvent) : list LogEvent :=
  (map (fun fault => FAULT_INJECTED (fst entry * tms) fault (fst entry))
     (faults_at_tick engine (fst entry)) ++ snd entry)%list.

Definition run_log (cfg : AppConfig) (engine : ScenarioEngine)
    (outs : list (list LogEvent)) : list LogEvent :=
  (mkLogEvent 0 "INFO" "BOOT"
     ("tick_ms=" ++ str (tick_ms cfg) ++ " total_ticks=" ++ str (total_ticks cfg))
   :: flat_map (tick_records (tick_ms cfg) engine)
        (combine (range (total_ticks cfg)) outs)
   ++ [mkLogEvent (Z.of_nat (Z.to_nat (total_ticks cfg)) * tick_ms cfg) "INFO"
         "SHUTDOWN" "reason=completed_ticks"])%list.

Lemma run_tick_returns (engine : ScenarioEngine) (t : Z) (r : Run)
    (out : list LogEvent) (app1 : App.t) :
  App.tick (now_ms (clock r)) (faults_at_tick engine t) (app r) = (Returns out, app1) ->
  run_tick engine t r
  = (Returns tt,
     mkRun (events r
            ++ map (fun fault => FAULT_INJECTED (now_ms (clock r)) fault t)
                 (faults_at_tick engine t) ++ out)%list
       (mkSimClock (clock_tick_ms (clock r))
          (now_ms (clock r) + clock_tick_ms (clock r)))
       app1).
Proof.
  intros H. destruct r as [ev [tms now] ap]. simpl in H.
  unfold run_tick, bind, gets, append_events, modify, on_app, on_clock, advance, ret.
  simpl. rewrite H. simpl. rewrite <- app_assoc. reflexivity.
Qed.

Lemma run_tick_raises (engine : ScenarioEngine) (t : Z) (r : Run)
    (m : string) (app1 : App.t) :
  App.tick (now_ms (clock r)) (faults_at_tick engine t) (app r)
  = (AssertionError m, app1) ->
  fst (run_tick engine t r) = AssertionError m.
Proof.
  intros H. destruct r as [ev [tms now] ap]. simpl in H.
  unfold run_tick, bind, gets, append_events, modify, on_app, on_clock, advance, ret.
  simpl. rewrite H. reflexivity.
Qed.

Lemma run_loop (engine : ScenarioEngine) (tms : Z) (len : nat) :
  forall (start : nat) (r : Run),
    clock r = mkSimClock tms (Z.of_nat start * tms) ->
    match tick_all
            (map (fun t => (t * tms, faults_at_tick engine t))
               (map Z.of_nat (seq start len))) (app r) with
    | (Returns outs, app') =>
        for_each (map Z.of_nat (seq start len)) (run_tick engine) r
        = (Returns tt,
           mkRun (events r
                  ++ flat_map (tick_records tms engine)
                       (combine (map Z.of_nat (seq start len)) outs))%list
             (mkSimClock tms (Z.of_nat (start + len) * tms)) app')
    | (AssertionError m, _) =>
        fst (for_each (map Z.of_nat (seq start len)) (run_tick engine) r)
        = AssertionError m
    end.
Proof.
  induction len as [| len IH]; intros start r Hclock.
  - simpl. unfold ret. destruct r as [ev ck ap]. simpl in *. subst ck.
    rewrite app_nil_r, Nat.add_0_r. reflexivity.
  - simpl. unfold bind at 1.
    destruct (App.tick (Z.of_nat start * tms) (faults_at_tick engine (Z.of_nat start))
                (app r)) as [[out | m] app1] eqn:Htick.
    + assert (Hrun := run_tick_returns engine (Z.of_nat start) r out app1).
      rewrite Hclock in Hrun. simpl in Hrun. specialize (Hrun Htick).
      assert (Hck : mkSimClock tms (Z.of_nat start * tms + tms)
                    = mkSimClock tms (Z.of_nat (S start) * tms))
        by (f_equal; lia).
      match type of Hrun with _ = (_, ?r1) => specialize (IH (S start) r1 Hck) end.
      cbn [app events clock] in IH.
      unfold bind at 1.
      destruct (tick_all _ app1) as [[outs | m] app2].
      * unfold ret. cbn [combine flat_map]. unfold bind at 1. rewrite Hrun, IH.
        unfold tick_records at 2. cbn [fst snd].
        rewrite <- !app_assoc.
        replace (start + S len)%nat with (S start + len)%nat by lia.
        reflexivity.
      * unfold bind at 1. rewrite Hrun. exact IH.
    + assert (Hrun := run_tick_raises engine (Z.of_nat start) r m app1).
      rewrite Hclock in Hrun. simpl in Hrun. specialize (Hrun Htick).
      unfold bind at 1.
      destruct (run_tick engine (Z.of_nat start) r) as [[[] | m'] r1];
        simpl in Hrun; [discriminate Hrun | exact Hrun].
Qed.

Lemma run_app_by_cases (cfg : AppConfig) (engine : ScenarioEngine) :
  match tick_all (run_calls cfg engine) (App.__init__ cfg) with
  | (Returns outs, _) => run_app cfg engine = Returns (run_log cfg engine outs)
  | (AssertionError m, _) => run_app cfg engine = AssertionError m
  end.
Proof.
  unfold run_app, run_calls, run_log, range.
  pose proof (run_loop engine (tick_ms cfg) (Z.to_nat (total_ticks cfg)) 0
                (mkRun ([] ++ [mkLogEvent 0 "INFO" "BOOT"
                                 ("tick_ms=" ++ str (tick_ms cfg) ++ " total_ticks="
                                    ++ str (total_ticks cfg))])
                   (mkSimClock (tick_ms cfg) 0) (App.__init__ cfg)) eq_refl) as H.
  cbn [List.app app events clock] in H.
  destruct (tick_all _ (App.__init__ cfg)) as [[outs | m] app'];
    unfold bind at 1; unfold append_events at 1, modify at 1;
    cbn [List.app app events clock]; unfold bind at 1.
  - rewrite H. simpl.
    unfold bind, gets, append_events, modify. simpl. reflexivity.
  - destruct (for_each _ _ _) as [[[] | m'] r1]; cbn [fst] in H |- *;
      [discriminate H | inversion H; reflexivity].
Qed.

(** [run_app] drives the machine through [run_calls] and logs [run_log] of
    what the calls returned: [BOOT], then for each tick its
    [FAULT_INJECTED] records and the machine's output, then [SHUTDOWN] at the
    end time; it raises exactly when one of those calls raises. *)
Theorem run_app_logs_the_calls :
  forall (cfg : AppConfig) (engine : ScenarioEngine),
    run_app cfg engine =
      match fst (tick_all (run_calls cfg engine) (App.__init__ cfg)) with
      | Returns outs => Returns (run_log cfg engine outs)
      | AssertionError m => AssertionError m
      end.
Proof.
  intros cfg engine. pose proof (run_app_by_cases cfg engine) as H.
  destruct (tick_all (run_calls cfg engine) (App.__init__ cfg)) as [[outs | m] self'];
    cbn [fst]; exact H.
Qed.

Lemma tick_out_facts
    (now : Z) (fs : list Fault) (self self' : App.t) (out : list LogEvent) :
  App.tick now fs self = (Returns out, self') ->
  count_code "APP_TICK" out = 1
  /\ count_code "FAULT_INJECTED" out = 0
  /\ Forall (fun e => t_ms e = now) out.
Proof.
  tick_paths self fs; intros H; inversion H; subst; clear H;
    (split; [| split]);
    try (repeat constructor);
    cbv [count_code filter code APP_TICK STATE_TRANSITION ALARM_RAISED_dropout
         ALARM_RAISED_spike ALARM_PENDING_RAISE ALARM_PENDING_CLEAR ALARM_CLEARED];
    reflexivity.
Qed.

Lemma tick_all_outs_facts (calls : list (Z * list Fault)) :
  forall (self self' : App.t) (outs : list (list LogEvent)),
    tick_all calls self = (Returns outs, self') ->
    Forall2 (fun call out =>
               count_code "APP_TICK" out = 1
               /\ count_code "FAULT_INJECTED" out = 0
               /\ Forall (fun e => t_ms e = fst call) out) calls outs.
Proof.
  induction calls as [| [now fs] rest IH]; intros self self' outs H.
  - inversion H. constructor.
  - simpl in H. unfold bind, ret in H.
    destruct (App.tick now fs self) as [[out | m] self1] eqn:Htick;
      [| discriminate H].
    destruct (tick_all rest self1) as [[outs' | m] self2] eqn:Hrest;
      [| discriminate H].
    inversion H; subst; clear H. constructor.
    + exact (tick_out_facts _ _ _ _ _ Htick).
    + exact (IH _ _ _ Hrest).
Qed.

Lemma count_code_app (c : string) (xs ys : list LogEvent) :
  count_code c (xs ++ ys) = count_code c xs + count_code c ys.
Proof. unfold count_code. rewrite filter_app, length_app. lia. Qed.

Lemma count_code_fault_records (c : string) (now t : Z) (fs : list Fault) :
  count_code c (map (fun fault => FAULT_INJECTED now fault t) fs)
  = if (c =? "FAULT_INJECTED")%string then Z.of_nat (List.length fs) else 0.
Proof.
  unfold count_code.
  induction fs as [| f fs IH]; cbn [map filter].
  - destruct (c =? "FAULT_INJECTED")%string; reflexivity.
  - change (code (FAULT_INJECTED now f t)) with "FAULT_INJECTED".
    rewrite (String.eqb_sym "FAULT_INJECTED" c).
    destruct (c =? "FAULT_INJECTED")%string; simpl List.length; lia.
Qed.

(** The records of the ticks of a run, counted by code. *)
Lemma count_code_tick_records (tms : Z) (engine : ScenarioEngine)
    (ts : list Z) :
  forall outs : list (list LogEvent),
    Forall2 (fun call out =>
               count_code "APP_TICK" out = 1
               /\ count_code "FAULT_INJECTED" out = 0
               /\ Forall (fun e => t_ms e = fst call) out)
      (map (fun t => (t * tms, faults_at_tick engine t)) ts) outs ->
    count_code "APP_TICK" (flat_map (tick_records tms engine) (combine ts outs))
    = Z.of_nat (List.length ts)
    /\ count_code "FAULT_INJECTED"
         (flat_map (tick_records tms engine) (combine ts outs))
       = Z.of_nat (List.length (flat_map (faults_at_tick engine) ts)).
Proof.
  induction ts as [| t ts IH]; intros outs H.
  - split; reflexivity.
  - simpl in H. inversion H as [| ? out ? outs' (Ha & Hf & _) Hrest]; subst.
    destruct (IH outs' Hrest) as [IHa IHf].
    simpl combine. simpl flat_map. unfold tick_records at 1 3. cbn [fst snd].
    rewrite !count_code_app, !count_code_fault_records, IHa, IHf, Ha, Hf.
    cbn [String.eqb Ascii.eqb Bool.eqb List.length flat_map].
    rewrite length_app. split; lia.
Qed.

(** A fault is injected by a run when its tick is one of the run's. *)
Definition in_run (total : Z) (f : Fault) : bool :=
  (0 <=? tick f) && (tick f <? total).

Lemma in_run_succ_length (fs : list Fault) (n : nat) :
  List.length (filter (in_run (Z.of_nat (S n))) fs)
  = Nat.add (List.length (filter (in_run (Z.of_nat n)) fs))
      (List.length (filter (fun f => tick f =? Z.of_nat n) fs)).
Proof.
  induction fs as [| f fs IH]; [reflexivity |].
  cbn [filter].
  destruct (in_run (Z.of_nat (S n)) f) eqn:E1, (in_run (Z.of_nat n) f) eqn:E2,
    (tick f =? Z.of_nat n) eqn:E3;
    cbn [List.length]; rewrite IH; try lia; exfalso;
    unfold in_run in E1, E2;
    destruct (Z.leb_spec 0 (tick f)); destruct (Z.ltb_spec (tick f) (Z.of_nat (S n)));
    destruct (Z.ltb_spec (tick f) (Z.of_nat n));
    destruct (Z.eqb_spec (tick f) (Z.of_nat n));
    cbn [andb] in E1, E2; try discriminate; lia.
Qed.

Lemma faults_of_ticks_length (engine : ScenarioEngine) (n : nat) :
  List.length (flat_map (faults_at_tick engine) (map Z.of_nat (seq 0 n)))
  = List.length (filter (in_run (Z.of_nat n)) (faults (scenario engine))).
Proof.
  induction n as [| n IH].
  - simpl. induction (faults (scenario engine)) as [| f fs IHf]; [reflexivity |].
    cbn [filter].
    destruct (in_run 0 f) eqn:E; [exfalso | exact IHf].
    unfold in_run in E.
    destruct (Z.leb_spec 0 (tick f)); destruct (Z.ltb_spec (tick f) 0);
      cbn [andb] in E; try discriminate; lia.
  - rewrite seq_S, map_app, flat_map_app, length_app, IH, in_run_succ_length.
    cbn [map flat_map]. rewrite app_nil_r. reflexivity.
Qed.

Lemma in_run_to_nat (total : Z) (fs : list Fault) :
  filter (in_run (Z.of_nat (Z.to_nat total))) fs = filter (in_run total) fs.
Proof.
  apply filter_ext. intros f. unfold in_run.
  destruct (Z.leb_spec 0 (tick f)); [| reflexivity].
  destruct (Z.ltb_spec (tick f) (Z.of_nat (Z.to_nat total)));
    destruct (Z.ltb_spec (tick f) total); try reflexivity; lia.
Qed.

(** The metrics of a run that completed account for the whole run: the
    alarmed and the nominal time add up to one tick period per tick of the
    run, and the injected-fault count is the number of faults of the
    scenario whose tick is one of the run's, each injected once. *)
Theorem run_metrics_account_for_the_run :
  forall (cfg : AppConfig) (engine : ScenarioEngine) (log : list LogEvent),
    run_app cfg engine = Returns log ->
    let m := MetricsCollector.snapshot
               (MetricsCollector.consume_all log
                  (MetricsCollector.__init__ (tick_ms cfg))) in
    alarmed_ms m + nominal_ms m = tick_ms cfg * Z.max 0 (total_ticks cfg)
    /\ faults_injected m
       = Z.of_nat (List.length (filter (in_run (total_ticks cfg))
                                  (faults (scenario engine)))).
Proof.
  intros cfg engine log Hrun. cbv zeta. unfold MetricsCollector.snapshot.
  pose proof (consume_all_counts log (MetricsCollector.__init__ (tick_ms cfg))) as Hc.
  cbv zeta in Hc. simpl in Hc. destruct Hc as (_ & _ & _ & Hf & Ht).
  pose proof (run_app_by_cases cfg engine) as Hcases.
  destruct (tick_all (run_calls cfg engine) (App.__init__ cfg))
    as [[outs | m] self'] eqn:Hcalls; [| congruence].
  rewrite Hcases in Hrun. inversion Hrun; subst log; clear Hrun Hcases.
  apply tick_all_outs_facts in Hcalls. unfold run_calls, range in Hcalls.
  apply count_code_tick_records in Hcalls. destruct Hcalls as [Ka Kf].
  unfold run_log, range in Ht, Hf |- *.
  rewrite count_code_cons, count_code_app in Ht, Hf.
  rewrite Ka in Ht. rewrite Kf in Hf.
  rewrite faults_of_ticks_length, in_run_to_nat in Hf.
  rewrite length_map, length_seq in Ht.
  repeat match type of Ht with
         | context [count_code "APP_TICK" [?e]] =>
             change (count_code "APP_TICK" [e]) with 0 in Ht
         end.
  repeat match type of Hf with
         | context [count_code "FAULT_INJECTED" [?e]] =>
             change (count_code "FAULT_INJECTED" [e]) with 0 in Hf
         end.
  split; [| lia].
  rewrite Ht. lia.
Qed.

(** The log of the run of [scenario_b] over four ticks; its fault at tick 7
    is past the end of the run. *)
Definition scenario_b_log : list LogEvent :=
  match run_app (mkAppConfig 10 4 1000 2 2) scenario_b with
  | Returns log => log
  | AssertionError _ => []
  end.

Lemma run_metrics_account_for_the_run_witness :
  alarmed_ms
    (MetricsCollector.snapshot
       (MetricsCollector.consume_all scenario_b_log
          (MetricsCollector.__init__ (tick_ms (mkAppConfig 10 4 1000 2 2)))))
  + nominal_ms
      (MetricsCollector.snapshot
         (MetricsCollector.consume_all scenario_b_log
            (MetricsCollector.__init__ (tick_ms (mkAppConfig 10 4 1000 2 2)))))
  = tick_ms (mkAppConfig 10 4 1000 2 2)
    * Z.max 0 (total_ticks (mkAppConfig 10 4 1000 2 2))
  /\ faults_injected
       (MetricsCollector.snapshot
          (MetricsCollector.consume_all scenario_b_log
             (MetricsCollector.__init__ (tick_ms (mkAppConfig 10 4 1000 2 2)))))
     = Z.of_nat
         (List.length
            (filter (in_run (total_ticks (mkAppConfig 10 4 1000 2 2)))
               (faults (scenario scenario_b)))).
Proof.
  apply (run_metrics_account_for_the_run (mkAppConfig 10 4 1000 2 2) scenario_b
           scenario_b_log).
  vm_compute. reflexivity.
Defined.

(** With [alarm_clear_after >= 2], as in [main], which leaves the debounce
    counts at their defaults, [run_app] returns for every scenario, tick
    period and tick count: a log that starts with [BOOT], holds the records
    of one call per tick and ends with [SHUTDOWN]. *)
Theorem run_app_completes_when_clear_after_ge_2 :
  forall (cfg : AppConfig) (engine : ScenarioEngine),
    2 <= alarm_clear_after cfg ->
    exists outs : list (list LogEvent),
      run_app cfg engine = Returns (run_log cfg engine outs)
      /\ List.length outs = Z.to_nat (total_ticks cfg).
Proof.
  intros cfg engine Hca.
  destruct (tick_all_returns_when_clear_after_ge_2 (run_calls cfg engine)
              (App.__init__ cfg) Hca) as (outs & self' & Hrun & Hlen).
  { intros _. reflexivity. }
  exists outs. split.
  - pose proof (run_app_by_cases cfg engine) as Hcases.
    rewrite Hrun in Hcases. exact Hcases.
  - rewrite Hlen. unfold run_calls, range. rewrite !length_map, length_seq.
    reflexivity.
Qed.

Lemma run_app_completes_when_clear_after_ge_2_witness :
  exists outs : list (list LogEvent),
    run_app (mkAppConfig 10 4 1000 2 2) scenario_b
    = Returns (run_log (mkAppConfig 10 4 1000 2 2) scenario_b outs)
    /\ List.length outs = Z.to_nat (total_ticks (mkAppConfig 10 4 1000 2 2)).
Proof.
  apply (run_app_completes_when_clear_after_ge_2 (mkAppConfig 10 4 1000 2 2)
           scenario_b).
  simpl. lia.
Defined.

(* ------------------------------------------------------------------ *)
(** ** The times of a run's log *)

Lemma sorted_constant (c : Z) (xs : list Z) :
  Forall (fun x => x = c) xs -> StronglySorted Z.le xs.
Proof.
  induction 1 as [| x xs Hx Hxs IH]; constructor; [exact IH |].
  subst x. eapply Forall_impl; [| exact Hxs]. intros y ->. lia.
Qed.

Lemma sorted_app_between (b : Z) (xs ys : list Z) :
  StronglySorted Z.le xs -> StronglySorted Z.le ys ->
  Forall (fun x => x <= b) xs -> Forall (fun y => b <= y) ys ->
  StronglySorted Z.le (xs ++ ys).
Proof.
  intros Hxs Hys Hle Hge.
  induction Hxs as [| x xs Hxs IH Hx]; [exact Hys |].
  inversion Hle as [| ? ? Hxb Hrest]; subst.
  simpl. constructor; [apply IH, Hrest |].
  apply Forall_app. split; [exact Hx |].
  eapply Forall_impl; [| exact Hge]. intros y Hy. simpl in Hy. lia.
Qed.

Lemma tick_records_times (tms : Z) (engine : ScenarioEngine)
    (t : Z) (out : list LogEvent) :
  Forall (fun e => t_ms e = t * tms) out ->
  Forall (fun x => x = t * tms) (map t_ms (tick_records tms engine (t, out))).
Proof.
  intros Hout. unfold tick_records. cbn [fst snd].
  rewrite map_app, map_map. apply Forall_app. split.
  - apply Forall_forall. intros x Hx. apply in_map_iff in Hx.
    destruct Hx as (f & <- & _). reflexivity.
  - rewrite Forall_map. exact Hout.
Qed.

Lemma run_records_sorted (tms : Z) (engine : ScenarioEngine) (len : nat) :
  0 <= tms ->
  forall (start : nat) (outs : list (list LogEvent)),
    Forall2 (fun call out =>
               count_code "APP_TICK" out = 1
               /\ count_code "FAULT_INJECTED" out = 0
               /\ Forall (fun e => t_ms e = fst call) out)
      (map (fun t => (t * tms, faults_at_tick engine t))
         (map Z.of_nat (seq start len))) outs ->
    StronglySorted Z.le
      (map t_ms (flat_map (tick_records tms engine)
                   (combine (map Z.of_nat (seq start len)) outs)))
    /\ Forall (fun x => Z.of_nat start * tms <= x <= Z.of_nat (start + len) * tms)
         (map t_ms (flat_map (tick_records tms engine)
                      (combine (map Z.of_nat (seq start len)) outs))).
Proof.
  intros Htms. induction len as [| len IH]; intros start outs H.
  - simpl. split; constructor.
  - simpl in H. inversion H as [| ? out ? outs' (_ & _ & Ht) Hrest]; subst.
    cbn [fst] in Ht.
    destruct (IH (S start) outs' Hrest) as [Hsorted Hbounds].
    pose proof (tick_records_times tms engine (Z.of_nat start) out Ht) as Hchunk.
    cbn [seq map combine flat_map]. rewrite map_app. split.
    + apply (sorted_app_between (Z.of_nat start * tms)).
      * exact (sorted_constant _ _ Hchunk).
      * exact Hsorted.
      * eapply Forall_impl; [| exact Hchunk]. intros x ->. cbv beta. nia.
      * eapply Forall_impl; [| exact Hbounds]. intros x Hx. cbv beta in Hx |- *. nia.
    + apply Forall_app. split.
      * eapply Forall_impl; [| exact Hchunk]. intros x ->. cbv beta. nia.
      * eapply Forall_impl; [| exact Hbounds]. intros x Hx. cbv beta in Hx |- *. nia.
Qed.

(** With a tick period that is not negative, the log of a run that
    completed is in non-decreasing time: [BOOT] at 0, the records of tick
    [t] at [t * tick_ms], [SHUTDOWN] at the end time. *)
Theorem run_log_is_time_ordered :
  forall (cfg : AppConfig) (engine : ScenarioEngine) (log : list LogEvent),
    0 <= tick_ms cfg ->
    run_app cfg engine = Returns log ->
    time_ordered log.
Proof.
  intros cfg engine log Htms Hrun.
  pose proof (run_app_by_cases cfg engine) as Hcases.
  destruct (tick_all (run_calls cfg engine) (App.__init__ cfg))
    as [[outs | m] self'] eqn:Hcalls; [| congruence].
  rewrite Hcases in Hrun. inversion Hrun; subst log; clear Hrun Hcases.
  apply tick_all_outs_facts in Hcalls. unfold run_calls, range in Hcalls.
  destruct (run_records_sorted (tick_ms cfg) engine (Z.to_nat (total_ticks cfg))
              Htms 0 outs Hcalls) as [Hsorted Hbounds].
  unfold time_ordered, run_log, range. cbn [map t_ms]. rewrite map_app.
  cbn [map t_ms]. constructor.
  - apply (sorted_app_between (Z.of_nat (Z.to_nat (total_ticks cfg)) * tick_ms cfg)).
    + exact Hsorted.
    + repeat constructor.
    + eapply Forall_impl; [| exact Hbounds]. intros x Hx. cbv beta in Hx |- *. nia.
    + repeat constructor. lia.
  - apply Forall_app. split.
    + eapply Forall_impl; [| exact Hbounds]. intros x Hx. cbv beta in Hx |- *. nia.
    + repeat constructor. nia.
Qed.

Lemma run_log_is_time_ordered_witness : time_ordered scenario_b_log.
Proof.
  apply (run_log_is_time_ordered (mkAppConfig 10 4 1000 2 2) scenario_b).
  - simpl. lia.
  - vm_compute. reflexivity.
Defined.

(* ------------------------------------------------------------------ *)
(** ** The streaks a state can hold *)

(** Outside the two pending states both streaks are 0; in [PENDING_RAISE]
    only the raise streak counts, in [PENDING_CLEAR] only the clear streak,
    which stays below [alarm_clear_after]. *)
Definition streaks_follow_state (self : App.t) : Prop :=
  match App._state self with
  | NOMINAL | ALARMED => App._raise_streak self = 0 /\ App._clear_streak self = 0
  | PENDING_RAISE => 1 <= App._raise_streak self /\ App._clear_streak self = 0
  | PENDING_CLEAR =>
      App._raise_streak self = 0
      /\ 1 <= App._clear_streak self < alarm_clear_after (App._cfg self)
  end.

Lemma tick_keeps_streaks_follow_state (now : Z) (fs : list Fault) (self : App.t) :
  streaks_follow_state self -> streaks_follow_state (snd (App.tick now fs self)).
Proof.
  unfold streaks_follow_state.
  tick_paths self fs; simpl; lia.
Qed.

(** After any series of calls on a fresh machine, a call that raised
    included, the streaks have the shape the state allows, for every
    configuration. *)
Theorem streaks_follow_state_always :
  forall (cfg : AppConfig) (calls : list (Z * list Fault)),
    streaks_follow_state (after_calls calls (App.__init__ cfg)).
Proof.
  intros cfg calls.
  assert (Hinit : streaks_follow_state (App.__init__ cfg))
    by (unfold streaks_follow_state; simpl; lia).
  revert Hinit. generalize (App.__init__ cfg). unfold after_calls.
  induction calls as [| call rest IH]; intros self H; simpl; [exact H |].
  apply IH, tick_keeps_streaks_follow_state, H.
Qed.

(* ------------------------------------------------------------------ *)
(** ** The legacy flag of the test module's machine *)

Definition test_after_calls (calls : list (Z * list Fault)) (self : TestApp.t)
    : TestApp.t :=
  fold_left (fun app call => snd (TestApp.tick (fst call) (snd call) app)) calls self.

Definition flag_in_sync (self : TestApp.t) : Prop :=
  TestApp._alarm_active self = AlarmState_eqb (TestApp._state self) ALARMED.

Lemma test_tick_keeps_flag_in_sync (now : Z) (fs : list Fault) (self : TestApp.t) :
  flag_in_sync self -> flag_in_sync (snd (TestApp.tick now fs self)).
Proof.
  unfold flag_in_sync. destruct self as [cfg tc st act rs cs].
  cbn [TestApp._alarm_active TestApp._state]. intros Hsync.
  unfold TestApp.tick.
  destruct (sensor_value fs) as [v |]; unfold_test_app; simpl;
    try (destruct (v >=? sensor_alarm_threshold cfg));
    destruct st; unfold_test_app; simpl;
    repeat match goal with
           | |- context [if ?a <? ?b then _ else _] =>
               destruct (Z.ltb_spec a b); unfold_test_app; simpl
           end;
    try reflexivity; exact Hsync.
Qed.

(** [_alarm_active] tells whether the state is [ALARMED] after any series of
    calls on a fresh machine of the test module, also after a call that
    stopped at the assertion before the flag was set again. *)
Theorem test_app_flag_stays_in_sync :
  forall (cfg : AppConfig) (calls : list (Z * list Fault)),
    TestApp._alarm_active (test_after_calls calls (TestApp.__init__ cfg))
    = AlarmState_eqb
        (TestApp._state (test_after_calls calls (TestApp.__init__ cfg))) ALARMED.
Proof.
  intros cfg calls.
  assert (Hinit : flag_in_sync (TestApp.__init__ cfg)) by reflexivity.
  revert Hinit. generalize (TestApp.__init__ cfg). unfold test_after_calls.
  induction calls as [| call rest IH]; intros self H; simpl; [exact H |].
  apply IH, test_tick_keeps_flag_in_sync, H.
Qed.

(* ------------------------------------------------------------------ *)
(** ** The clock and the time field *)

(** [n] calls of [advance] in a row. *)
Fixpoint advance_n (n : nat) (self : SimClock) : SimClock :=
  match n with
  | O => self
  | S n' => advance_n n' (snd (advance self))
  end.

(** [advance] returns the time it has set; [n] calls move the clock by [n]
    tick periods and leave the period alone. *)
Theorem clock_advances_by_tick_ms :
  forall (n : nat) (self : SimClock),
    fst (advance self) = Returns (now_ms (snd (advance self)))
    /\ now_ms (advance_n n self) = now_ms self + Z.of_nat n * clock_tick_ms self
    /\ clock_tick_ms (advance_n n self) = clock_tick_ms self.
Proof.
  intros n self. split; [reflexivity |].
  revert self. induction n as [| n IH]; intros self.
  - simpl. split; [lia | reflexivity].
  - cbn [advance_n]. destruct (IH (snd (advance self))) as [Hnow Htick].
    rewrite Hnow, Htick. unfold advance. cbn [snd now_ms clock_tick_ms].
    split; [lia | reflexivity].
Qed.

Lemma string_length_app (s1 s2 : string) :
  String.length (s1 ++ s2) = (String.length s1 + String.length s2)%nat.
Proof. induction s1 as [| c s1 IH]; simpl; [reflexivity | rewrite IH; reflexivity]. Qed.

Lemma zeros_length (n : nat) : String.length (zeros n) = n.
Proof. induction n as [| n IH]; simpl; [reflexivity | rewrite IH; reflexivity]. Qed.

(** The time field of a log line is at least six characters wide, and is
    the decimal number itself once that number needs six digits or more. *)
Theorem format_06d_is_at_least_six_wide :
  forall n : Z,
    (6 <= String.length (format_06d n))%nat
    /\ (0 <= n -> (6 <= String.length (str n))%nat -> format_06d n = str n).
Proof.
  intros n. unfold format_06d. split.
  - destruct (n <? 0); rewrite ?string_length_app, ?zeros_length;
      cbn [String.length]; rewrite ?string_length_app, ?zeros_length; lia.
  - intros Hn Hlen. destruct (Z.ltb_spec n 0); [lia |].
    rewrite Z.abs_eq by lia.
    replace (6 - String.length (str n))%nat with 0%nat by lia.
    reflexivity.
Qed.

(* ------------------------------------------------------------------ *)
(** ** [APP_TICK] on a machine driven from its construction *)

Lemma after_calls_keeps_clear_streak_idle (calls : list (Z * list Fault)) :
  forall self : App.t,
    2 <= alarm_clear_after (App._cfg self) ->
    clear_streak_idle self ->
    clear_streak_idle (after_calls calls self)
    /\ App._cfg (after_calls calls self) = App._cfg self.
Proof.
  unfold after_calls.
  induction calls as [| [now fs] rest IH]; intros self Hca Hidle; simpl.
  - split; [exact Hidle | reflexivity].
  - pose proof (tick_keeps_cfg now fs self) as Hcfg.
    destruct (IH (snd (App.tick now fs self))) as [Hidle' Hcfg'].
    + rewrite Hcfg. exact Hca.
    + apply tick_keeps_clear_streak_idle; assumption.
    + split; [exact Hidle' | congruence].
Qed.

(** With [alarm_clear_after >= 2], every call of [tick] on a machine driven
    from its construction returns, whatever the calls before it were; its
    first record is [APP_TICK] with the counter's value before the call, no
    other record is an [APP_TICK], and the counter has advanced by one. *)
Theorem app_tick_first_and_once_when_clear_after_ge_2 :
  forall (cfg : AppConfig) (calls : list (Z * list Fault))
         (now : Z) (fs : list Fault),
    2 <= alarm_clear_after cfg ->
    exists (out : list LogEvent) (self' : App.t),
      App.tick now fs (after_calls calls (App.__init__ cfg)) = (Returns out, self')
      /\ hd_error out
         = Some (APP_TICK now (App._tick_count (after_calls calls (App.__init__ cfg))))
      /\ count_code "APP_TICK" out = 1
      /\ App._tick_count self'
         = App._tick_count (after_calls calls (App.__init__ cfg)) + 1.
Proof.
  intros cfg calls now fs Hca.
  destruct (after_calls_keeps_clear_streak_idle calls (App.__init__ cfg) Hca)
    as [Hidle Hcfg]; [intros _; reflexivity |].
  set (self := after_calls calls (App.__init__ cfg)) in *.
  assert (Hret : returned (App.tick now fs self) = true).
  { apply tick_returns_when_idle; [rewrite Hcfg; exact Hca | exact Hidle]. }
  destruct (App.tick now fs self) as [[out | m] self'] eqn:Htick;
    [| discriminate Hret].
  exists out, self'.
  destruct (tick_count_after_return _ _ _ _ _ Htick) as [Htc Hhd].
  destruct (tick_out_facts _ _ _ _ _ Htick) as (Hone & _ & _).
  repeat split; assumption.
Qed.

Lemma app_tick_first_and_once_when_clear_after_ge_2_witness :
  exists (out : list LogEvent) (self' : App.t),
    App.tick 20 []
      (after_calls [(0, [mkFault 0 "dropout" 1]); (10, [])]
         (App.__init__ AppConfig_default)) = (Returns out, self')
    /\ hd_error out
       = Some (APP_TICK 20
                 (App._tick_count
                    (after_calls [(0, [mkFault 0 "dropout" 1]); (10, [])]
                       (App.__init__ AppConfig_default))))
    /\ count_code "APP_TICK" out = 1
    /\ App._tick_count self'
       = App._tick_count
           (after_calls [(0, [mkFault 0 "dropout" 1]); (10, [])]
              (App.__init__ AppConfig_default)) + 1.
Proof.
  apply (app_tick_first_and_once_when_clear_after_ge_2 AppConfig_default
           [(0, [mkFault 0 "dropout" 1]); (10, [])] 20 []).
  simpl. lia.
Defined.

(* ------------------------------------------------------------------ *)
(** ** A dropout while clearing, in the two machines *)

(** In [PENDING_CLEAR], a call whose fault list holds a [dropout] that no
    [sensor_spike] follows raises [AssertionError] in the test module's
    machine, where [ALARMED] is no successor of [PENDING_CLEAR], and returns
    [ALARM_RAISED] with a transition to [ALARMED] in [src/app/app.py]. *)
Theorem machines_differ_when_no_spike_follows_dropout :
  forall (a : App.t) (d : TestApp.t) (now : Z)
         (pre post : list Fault) (drop : Fault),
    App._state a = PENDING_CLEAR ->
    TestApp._state d = PENDING_CLEAR ->
    kind drop = "dropout" ->
    Forall (fun f => kind f <> "sensor_spike") post ->
    (exists d' : TestApp.t,
        TestApp.tick now (pre ++ drop :: post) d
        = (AssertionError
             (illegal_transition PENDING_CLEAR ALARMED "dropout_immediate"), d'))
    /\ (exists a' : App.t,
           App.tick now (pre ++ drop :: post) a
           = (Returns [APP_TICK now (App._tick_count a);
                       STATE_TRANSITION now PENDING_CLEAR ALARMED "dropout_returned";
                       ALARM_RAISED_dropout now], a')
           /\ App._state a' = ALARMED).
Proof.
  intros a d now pre post drop Ha Hd Hdrop Hpost.
  assert (Hs : sensor_value (pre ++ drop :: post) = None).
  { rewrite sensor_value_app. simpl. unfold sensor_step at 2. rewrite Hdrop. simpl.
    apply sensor_step_keeps_absent, Hpost. }
  destruct (machines_differ_on_dropout_while_clearing a d now _ Ha Hd Hs)
    as (_ & _ & Htest & Happ).
  split; assumption.
Qed.

Lemma machines_differ_when_no_spike_follows_dropout_witness :
  (exists d' : TestApp.t,
      TestApp.tick 20
        ([mkFault 2 "sensor_spike" 1200] ++ mkFault 2 "dropout" 1 :: [mkFault 2 "noise" 7])
        pending_clear_test_app
      = (AssertionError
           (illegal_transition PENDING_CLEAR ALARMED "dropout_immediate"), d'))
  /\ (exists a' : App.t,
         App.tick 20
           ([mkFault 2 "sensor_spike" 1200] ++ mkFault 2 "dropout" 1 :: [mkFault 2 "noise" 7])
           pending_clear_app
         = (Returns [APP_TICK 20 (App._tick_count pending_clear_app);
                     STATE_TRANSITION 20 PENDING_CLEAR ALARMED "dropout_returned";
                     ALARM_RAISED_dropout 20], a')
         /\ App._state a' = ALARMED).
Proof.
  apply (machines_differ_when_no_spike_follows_dropout pending_clear_app
           pending_clear_test_app 20 [mkFault 2 "sensor_spike" 1200]
           [mkFault 2 "noise" 7] (mkFault 2 "dropout" 1)).
  - reflexivity.
  - reflexivity.
  - reflexivity.
  - repeat constructor. discriminate.
Defined.
